(** * Whysapp: the date-question assigner and the message store

    A shallow embedding of [streamlit_app_vP.py].  The two stateful parts of
    the program are modelled with explicit state passing:

    - the mapping file [data/date_questions_vP.json] and the [data] directory
      are a record [fs]; the functions [load_and_assign_questions] and
      [load_question_mapping] take a file system and return the new one, the
      value returned (or the exception raised) and the Streamlit calls made;
    - the SQLite table [messages] is a record [db] holding the rows in rowid
      order and the AUTOINCREMENT counter; [send_message], [get_messages],
      [delete_message] and [edit_message] are functions over it.

    What the program takes from outside (the clock, the spreadsheet, the
    random generator behind [random.shuffle]) is gathered in a record [env]. *)

From Stdlib Require Import ZArith List String Ascii Bool Lia Permutation Sorted.
From stdpp Require Import gmap strings list fin_maps.

Local Open Scope string_scope.

(** ** Python values used by the program *)

Inductive exn : Type :=
  | ZeroDivisionError
  | IndexError
  | FileNotFoundError
  | JSONDecodeError.

Inductive res (A : Type) : Type :=
  | Ok (a : A)
  | Raise (e : exn).

Arguments Ok {A} a.
Arguments Raise {A} e.

Definition res_bind {A B : Type} (r : res A) (k : A -> res B) : res B :=
  match r with
  | Ok a => k a
  | Raise e => Raise e
  end.

Notation "x <-- r ;; k" := (res_bind r (fun x => k))
  (at level 100, r at next level, right associativity).

(** [a % b] on Python integers: the result has the sign of [b], as [Z.modulo];
    a zero divisor raises. *)
Definition py_mod (a b : Z) : res Z :=
  if (b =? 0)%Z then Raise ZeroDivisionError else Ok (a mod b)%Z.

(** [l[i]] on a Python list, negative indices counting from the end. *)
Definition py_getitem {A : Type} (l : list A) (i : Z) : res A :=
  let n := Z.of_nat (length l) in
  let j := if (i <? 0)%Z then (i + n)%Z else i in
  if (j <? 0)%Z then Raise IndexError
  else match nth_error l (Z.to_nat j) with
       | Some x => Ok x
       | None => Raise IndexError
       end.

(** ** Calendar dates ([datetime.date]) *)

Record date : Type := mkdate { year : Z; month : Z; day : Z }.

(** [is_leap_year], lines 158-160. *)
Definition is_leap_year (yr : Z) : bool :=
  (yr mod 4 =? 0)%Z && (negb (yr mod 100 =? 0)%Z || (yr mod 400 =? 0)%Z).

Definition days_in_month (leap : bool) (m : Z) : Z :=
  match m with
  | 2%Z => if leap then 29%Z else 28%Z
  | 4%Z | 6%Z | 9%Z | 11%Z => 30%Z
  | _ => 31%Z
  end.

(** Number of days of the year before the first day of month [m]. *)
Definition days_before_month (leap : bool) (m : Z) : Z :=
  fold_right Z.add 0%Z
    (map (fun k => days_in_month leap (Z.of_nat k)) (seq 1 (Z.to_nat m - 1))).

(** A date of the proleptic Gregorian calendar. *)
Definition valid_date (d : date) : Prop :=
  (1 <= year d <= 9999)%Z /\ (1 <= month d <= 12)%Z /\
  (1 <= day d <= days_in_month (is_leap_year (year d)) (month d))%Z.

(** The day after [(m, d)] inside one year, and whether the year ends. *)
Definition next_md (leap : bool) (md : Z * Z) : Z * Z * bool :=
  let '(m, d) := md in
  if (d <? days_in_month leap m)%Z then (m, (d + 1)%Z, false)
  else if (m <? 12)%Z then ((m + 1)%Z, 1%Z, false)
  else (1%Z, 1%Z, true).

Definition next_day (d : date) : date :=
  let '(m', d', carry) := next_md (is_leap_year (year d)) (month d, day d) in
  mkdate (if carry then (year d + 1)%Z else year d) m' d'.

(** [d + timedelta(days=n)] for [n >= 0]. *)
Definition date_add_days (d : date) (n : nat) : date := Nat.iter n next_day d.

(** [d.replace(month=m, day=dd)]. *)
Definition date_replace (d : date) (m dd : Z) : date := mkdate (year d) m dd.

(** [d.timetuple().tm_yday]: 1 for January 1st. *)
Definition tm_yday (d : date) : Z :=
  (days_before_month (is_leap_year (year d)) (month d) + day d)%Z.

(** *** [strftime("%Y-%m-%d")] *)

Definition digit (k : Z) : ascii := ascii_of_nat (48 + Z.to_nat k).

Definition fmt2 (k : Z) : string :=
  String (digit (k / 10 mod 10)) (String (digit (k mod 10)) EmptyString).

Definition fmt4 (k : Z) : string :=
  String (digit (k / 1000 mod 10)) (String (digit (k / 100 mod 10)) (fmt2 k)).

Definition fmt_md (md : Z * Z) : string :=
  "-" ++ fmt2 (fst md) ++ "-" ++ fmt2 (snd md).

Definition strftime (d : date) : string := fmt4 (year d) ++ fmt_md (month d, day d).

(** ** The days of one year, as walked by the assignment loop *)

Definition year_length (leap : bool) : nat := if leap then 366 else 365.

(** Month and day reached [n] days after January 1st. *)
Definition walk (leap : bool) (n : nat) : Z * Z :=
  Nat.iter n (fun md => fst (next_md leap md)) (1%Z, 1%Z).

(** ** The outside world *)

(** Calls of the Streamlit status functions, in the order they are made.  An
    f-string that embeds a caught exception keeps the exception apart. *)
Inductive st_call : Type :=
  | st_info (msg : string)
  | st_success (msg : string)
  | st_error (msg : string) (cause : option exn).

(** A sheet as [xl.parse] returns it: the columns of the data rows, an empty
    cell being [None] (NaN). *)
Definition sheet : Type := list (list (option string)).

(** [today] is [date.today()]; [workbook] is what [pd.ExcelFile] finds at
    [QUESTIONS_FILE] ([None]: the file is missing or unreadable); [shuffle] is
    the rearrangement [random.shuffle] performs on this run. *)
Record env : Type := mkenv {
  today : date;
  workbook : option (list sheet);
  shuffle : list string -> list string
}.

Definition shuffle_permutes (e : env) : Prop :=
  forall l : list string, Permutation l (shuffle e l).

(** The mapping file holds either a JSON object of strings, which
    [json.load] gives back as the dict that [json.dump] wrote, or something
    [json.load] rejects.  (A file holding valid JSON that is not an object is
    not modelled.) *)
Inductive file_content : Type :=
  | JsonObject (m : gmap string string)
  | Garbage (raw : string).

Record fs : Type := mkfs {
  data_dir : bool;
  mapping_file : option file_content
}.

(** [os.makedirs('data')], called when the directory is missing: the new
    directory is empty, so there is no mapping file in it. *)
Definition makedirs_data (s : fs) : fs :=
  {| data_dir := true; mapping_file := None |}.

(** [open(MAPPING_FILE, 'w')] followed by [json.dump]. *)
Definition dump_mapping (s : fs) (mapping : gmap string string) : res fs :=
  if data_dir s
  then Ok {| data_dir := true; mapping_file := Some (JsonObject mapping) |}
  else Raise FileNotFoundError.

Definition json_load (c : file_content) : res (gmap string string) :=
  match c with
  | JsonObject m => Ok m
  | Garbage _ => Raise JSONDecodeError
  end.

(** ** The date-question assigner *)

(** [df.iloc[:, 0].dropna().tolist()] *)
Definition first_column_questions (sh : sheet) : res (list string) :=
  match sh with
  | [] => Raise IndexError
  | col :: _ => Ok (omap (fun cell => cell) col)
  end.

Fixpoint extend_from_sheets (sheets : list sheet) (all_questions : list string)
  : res (list string) :=
  match sheets with
  | [] => Ok all_questions
  | sh :: rest =>
      questions <-- first_column_questions sh ;;
      extend_from_sheets rest (all_questions ++ questions)%list
  end.

(** The body of the [try] of lines 128-135. *)
Definition read_all_questions (wb : option (list sheet)) : res (list string) :=
  match wb with
  | None => Raise FileNotFoundError
  | Some sheets => extend_from_sheets sheets []
  end.

(** The loop of lines 146-150 over the dates still to visit. *)
Fixpoint assign_loop (all_questions : list string) (dates : list date)
    (mapping : gmap string string) : res (gmap string string) :=
  match dates with
  | [] => Ok mapping
  | single_date :: rest =>
      let date_str := strftime single_date in
      i <-- py_mod (tm_yday single_date - 1) (Z.of_nat (length all_questions)) ;;
      question <-- py_getitem all_questions i ;;
      assign_loop all_questions rest (<[date_str := question]> mapping)
  end.

(** The question the loop picks for a date. *)
Definition question_at (all_questions : list string) (d : date) : string :=
  nth (Z.to_nat ((tm_yday d - 1) mod Z.of_nat (length all_questions)))
      all_questions "".

(** What a run of insertions [mapping[key a] = val a] over [l] leaves. *)
Definition insert_all {A : Type} (key val : A -> string)
    (m0 : gmap string string) (l : list A) : gmap string string :=
  foldl (fun m a => <[key a := val a]> m) m0 l.

Definition days_in_year (yr : Z) : nat := if is_leap_year yr then 366 else 365.

Definition year_dates (t : date) : list date :=
  map (fun n => date_add_days (date_replace t 1 1) n) (seq 0 (days_in_year (year t))).

(** [load_and_assign_questions], lines 122-156: the value returned or the
    exception that escapes, the file system afterwards, the Streamlit calls. *)
Definition load_and_assign_questions (e : env) (s : fs)
  : res (gmap string string) * fs * list st_call :=
  match read_all_questions (workbook e) with
  | Raise err => (Ok ∅, s, [st_error "Error reading Excel file: " (Some err)])
  | Ok loaded =>
      let all_questions := shuffle e loaded in
      match assign_loop all_questions (year_dates (today e)) ∅ with
      | Raise err => (Raise err, s, [])
      | Ok mapping =>
          match dump_mapping s mapping with
          | Raise err => (Raise err, s, [])
          | Ok s' => (Ok mapping, s', [])
          end
      end
  end.

(** [load_question_mapping], lines 162-184. *)
Definition load_question_mapping (e : env) (s : fs)
  : res (gmap string string) * fs * list st_call :=
  let s1 := if data_dir s then s else makedirs_data s in
  match mapping_file s1 with
  | None =>
      let '(r, s2, calls) := load_and_assign_questions e s1 in
      let calls := st_info "Initializing date-question mapping..." :: calls in
      match r with
      | Raise err => (Raise err, s2, calls)
      | Ok mapping =>
          if bool_decide (mapping = ∅)
          then (Ok mapping, s2,
                (calls ++ [st_error "Failed to initialize date-question mapping." None])%list)
          else (Ok mapping, s2,
                (calls ++ [st_success "Date-question mapping initialized successfully!"])%list)
      end
  | Some content =>
      match json_load content with
      | Ok mapping => (Ok mapping, s1, [])
      | Raise err =>
          (Ok ∅, s1, [st_error "Error loading date-question mapping: " (Some err)])
      end
  end.

(** Line 271: [question_mapping.get(selected_date_str, "No question ...")]. *)
Definition no_question : string := "No question available for this date.".

Definition question_for (question_mapping : gmap string string)
    (selected_date_str : string) : string :=
  default no_question (question_mapping !! selected_date_str).

(** ** SQLite's [DATE()] on the timestamps of the table *)

Definition digit_val (c : ascii) : option Z :=
  let n := Z.of_nat (nat_of_ascii c) in
  if (48 <=? n)%Z && (n <=? 57)%Z then Some (n - 48)%Z else None.

Definition digits2 (a b : ascii) : option Z :=
  x ← digit_val a; y ← digit_val b; Some (10 * x + y)%Z.

Definition in_range (lo hi : Z) (o : option Z) : option Z :=
  v ← o; if (lo <=? v)%Z && (v <=? hi)%Z then Some v else None.

(** [HH:MM:SS], hours up to 24 as SQLite accepts them. *)
Definition parse_hms (s : string) : bool :=
  match s with
  | String h1 (String h2 (String ":" (String m1 (String m2
      (String ":" (String s1 (String s2 EmptyString))))))) =>
      bool_decide (is_Some (in_range 0 24 (digits2 h1 h2))) &&
      bool_decide (is_Some (in_range 0 59 (digits2 m1 m2))) &&
      bool_decide (is_Some (in_range 0 59 (digits2 s1 s2)))
  | _ => false
  end.

Definition time_part_ok (rest : string) : bool :=
  match rest with
  | EmptyString => true
  | String " " hms => parse_hms hms
  | _ => false
  end.

(** A day number past the end of its month (February 30th) runs over into the
    next month. *)
Definition normalize_ymd (y m d : Z) : date :=
  let dim := days_in_month (is_leap_year y) m in
  if (d <=? dim)%Z then mkdate y m d else mkdate y (m + 1) (d - dim).

(** [DATE(timestamp)] for the two shapes of time value this table holds,
    [YYYY-MM-DD] and [YYYY-MM-DD HH:MM:SS]; [None] is SQL NULL.  The other
    time-value formats of SQLite (fractional seconds, a [T] separator, time
    zones, Julian day numbers) are not modelled and read as NULL. *)
Definition sql_date (ts : string) : option string :=
  match ts with
  | String y1 (String y2 (String y3 (String y4 (String "-" (String m1 (String m2
      (String "-" (String d1 (String d2 rest))))))))) =>
      yh ← digits2 y1 y2;
      yl ← digits2 y3 y4;
      m ← in_range 1 12 (digits2 m1 m2);
      d ← in_range 1 31 (digits2 d1 d2);
      if time_part_ok rest
      then Some (strftime (normalize_ymd (100 * yh + yl) m d))
      else None
  | _ => None
  end.

(** ** The message store *)

Definition USER_A : string := "User 1".
Definition USER_B : string := "User 2".

(** A row of the table [messages] of lines 32-39. *)
Record row : Type := mkrow {
  id : Z;
  sender : string;
  message : string;
  timestamp : string
}.

(** The table, rows in rowid order, and the counter SQLite keeps in
    [sqlite_sequence] for an AUTOINCREMENT key: the largest id ever given. *)
Record db : Type := mkdb {
  rows : list row;
  sqlite_sequence : Z
}.

Definition empty_db : db := {| rows := []; sqlite_sequence := 0 |}.

Definition max_rowid (l : list row) : Z := fold_right Z.max 0%Z (map id l).

(** Python truthiness of an optional string argument. *)
Definition given (o : option string) : option string :=
  match o with
  | Some s => if String.eqb s "" then None else Some s
  | None => None
  end.

(** [send_message], lines 47-62; [now] is the value of CURRENT_TIMESTAMP. *)
Definition send_message (d : db) (now : string) (sender message : string)
    (chat_date_str : option string) : db :=
  let timestamp_value :=
    match given chat_date_str with
    | Some c => c ++ " 00:00:00"
    | None => now
    end in
  let new_id := (Z.max (sqlite_sequence d) (max_rowid (rows d)) + 1)%Z in
  {| rows := (rows d ++ [mkrow new_id sender message timestamp_value])%list;
     sqlite_sequence := new_id |}.

Fixpoint insert_by_id (r : row) (l : list row) : list row :=
  match l with
  | [] => [r]
  | x :: l' => if (id r <=? id x)%Z then r :: l else x :: insert_by_id r l'
  end.

(** [ORDER BY id ASC] *)
Definition order_by_id (l : list row) : list row := fold_right insert_by_id [] l.

(** [get_messages], lines 64-88. *)
Definition get_messages (d : db) (selected_date : option string) : list row :=
  match given selected_date with
  | Some D =>
      order_by_id (filter (fun r => sql_date (timestamp r) = Some D) (rows d))
  | None => order_by_id (rows d)
  end.

(** [SELECT sender FROM messages WHERE id = ?] followed by [fetchone()]. *)
Definition select_sender (d : db) (message_id : Z) : option string :=
  head (map sender (filter (fun r => id r = message_id) (rows d))).

(** [delete_message], lines 90-104. *)
Definition delete_message (d : db) (message_id : Z) (username : string)
  : db * st_call :=
  match select_sender d message_id with
  | Some owner =>
      if String.eqb owner username
      then ({| rows := filter (fun r => id r <> message_id) (rows d);
               sqlite_sequence := sqlite_sequence d |},
            st_success "Message deleted successfully!")
      else (d, st_error "You can only delete your own messages." None)
  | None => (d, st_error "You can only delete your own messages." None)
  end.

Definition set_message (new_message : string) (r : row) : row :=
  {| id := id r; sender := sender r; message := new_message;
     timestamp := timestamp r |}.

(** [edit_message], lines 106-120. *)
Definition edit_message (d : db) (message_id : Z) (username new_message : string)
  : db * st_call :=
  match select_sender d message_id with
  | Some owner =>
      if String.eqb owner username
      then ({| rows := map (fun r => if bool_decide (id r = message_id)
                                     then set_message new_message r else r)
                           (rows d);
               sqlite_sequence := sqlite_sequence d |},
            st_success "Message updated successfully!")
      else (d, st_error "You can only edit your own messages." None)
  | None => (d, st_error "You can only edit your own messages." None)
  end.

(** ** The callers in [main] *)






(** ** The table as SQLite keeps it *)

(** Rows lie in strictly increasing rowid order, with positive ids that the
    AUTOINCREMENT counter has already seen. *)
Definition db_ok (d : db) : Prop :=
  StronglySorted (fun a b => (id a < id b)%Z) (rows d) /\
  Forall (fun r => (0 < id r <= sqlite_sequence d)%Z) (rows d) /\
  (0 <= sqlite_sequence d)%Z.

(** ** Sample data *)

Definition sample_env : env :=
  {| today := mkdate 2025 11 4;
     workbook := Some [[[Some "What made you smile today?"; None;
                         Some "What are you grateful for?"]]];
     shuffle := fun l => rev l |}.

Definition other_env : env :=
  {| today := mkdate 2028 2 29;
     workbook := Some [[[Some "A new question"]]];
     shuffle := fun l => l |}.

Definition empty_pool_env : env :=
  {| today := mkdate 2025 11 4;
     workbook := Some [[[None; None]]];
     shuffle := fun l => rev l |}.

Definition fresh_fs : fs := {| data_dir := false; mapping_file := None |}.

Definition sample_mapping : gmap string string :=
  {[ "2025-02-01" := "What made you smile today?" ]}.

Definition sample_fs : fs :=
  {| data_dir := true; mapping_file := Some (JsonObject sample_mapping) |}.

Definition corrupt_fs : fs :=
  {| data_dir := true; mapping_file := Some (Garbage "{ 2025-02-") |}.

Definition sample_db : db :=
  send_message empty_db "2025-02-03 10:15:00" USER_A "hello" None.

Definition ready_fs : fs := {| data_dir := true; mapping_file := None |}.

Definition sample_pool : list string :=
  ["What made you smile today?"; "What are you grateful for?"].

Definition sample_row : row :=
  {| id := 1; sender := USER_A; message := "hello";
     timestamp := "2025-02-03 10:15:00" |}.

(** ** More of [main] *)

(** The comprehension of line 222 over [question_mapping.items()], the items
    taken in the order the dict yields them.  [<=] on Python strings compares
    code points from the left; on the ASCII strings of this program that is
    [String.leb]. *)
Definition question_list_items (items : list (string * string))
    (today_str : string) : list (string * string) :=
  List.filter
    (fun item => String.leb "2025-02-01" (fst item) && String.leb (fst item) today_str)
    items.

(** Calendar order on dates. *)
Definition date_leb (a b : date) : bool :=
  (year a <? year b)%Z ||
  ((year a =? year b)%Z &&
   ((month a <? month b)%Z || ((month a =? month b)%Z && (day a <=? day b)%Z))).


(** The messages of the listing that get the Edit and Delete buttons for
    [username] (the branch of line 290). *)
Definition own_messages (messages : list row) (username : string) : list row :=
  List.filter (fun r => String.eqb (sender r) username) messages.

(** ** Sequences of store calls *)

Inductive store_call : Type :=
  | call_send (now who body : string) (chat_date_str : option string)
  | call_delete (message_id : Z) (username : string)
  | call_edit (message_id : Z) (username new_message : string).

Definition do_call (d : db) (c : store_call) : db :=
  match c with
  | call_send now who body chat_date_str => send_message d now who body chat_date_str
  | call_delete message_id username => (delete_message d message_id username).1
  | call_edit message_id username new_message =>
      (edit_message d message_id username new_message).1
  end.

Definition do_calls (d : db) (cs : list store_call) : db := fold_left do_call cs d.


(** The first column of a sheet without its empty cells; no questions for a
    sheet without columns. *)
Definition sheet_questions (sh : sheet) : list string :=
  match sh with
  | [] => []
  | col :: _ => omap (fun cell => cell) col
  end.

Definition failing_env : env :=
  {| today := mkdate 2025 11 4; workbook := None; shuffle := fun l => l |}.

(** * Properties *)

(** ** Calendar facts *)

Lemma forallb_below (P : nat -> bool) (N : nat) :
  forallb P (seq 0 N) = true -> forall n, (n < N)%nat -> P n = true.
Proof.
  intros H n Hn. rewrite forallb_forall in H. apply H, in_seq. lia.
Qed.

Lemma walk_no_carry leap n :
  (S n < year_length leap)%nat -> snd (next_md leap (walk leap n)) = false.
Proof.
  intros Hn.
  assert (Hc : forallb (fun k => negb (snd (next_md leap (walk leap k))))
                 (seq 0 (year_length leap - 1)) = true)
    by (destruct leap; vm_compute; reflexivity).
  apply negb_true_iff.
  apply (forallb_below _ _ Hc). lia.
Qed.

Lemma walk_yday leap n :
  (n < year_length leap)%nat ->
  (days_before_month leap (fst (walk leap n)) + snd (walk leap n))%Z
  = Z.of_nat (S n).
Proof.
  intros Hn.
  assert (Hc : forallb (fun k =>
                 (days_before_month leap (fst (walk leap k)) + snd (walk leap k)
                  =? Z.of_nat (S k))%Z)
                 (seq 0 (year_length leap)) = true)
    by (destruct leap; vm_compute; reflexivity).
  apply Z.eqb_eq. apply (forallb_below _ _ Hc n Hn).
Qed.

Lemma walk_valid leap n :
  (n < year_length leap)%nat ->
  (1 <= fst (walk leap n) <= 12)%Z /\
  (1 <= snd (walk leap n) <= days_in_month leap (fst (walk leap n)))%Z.
Proof.
  intros Hn.
  assert (Hc : forallb (fun k =>
                 (1 <=? fst (walk leap k))%Z && (fst (walk leap k) <=? 12)%Z &&
                 (1 <=? snd (walk leap k))%Z &&
                 (snd (walk leap k) <=? days_in_month leap (fst (walk leap k)))%Z)
                 (seq 0 (year_length leap)) = true)
    by (destruct leap; vm_compute; reflexivity).
  pose proof (forallb_below _ _ Hc n Hn) as H. cbv beta in H.
  rewrite !andb_true_iff in H. lia.
Qed.

Lemma walk_keys_NoDup leap :
  NoDup (map (fun n => fmt_md (walk leap n)) (seq 0 (year_length leap))).
Proof.
  apply (bool_decide_unpack _).
  destruct leap; vm_compute; exact I.
Qed.

Lemma date_add_days_S d n : date_add_days d (S n) = next_day (date_add_days d n).
Proof. reflexivity. Qed.

Lemma walk_S leap n : walk leap (S n) = fst (next_md leap (walk leap n)).
Proof. reflexivity. Qed.

(** Within the year, adding [n] days to January 1st stays in the year and
    follows [walk]. *)
Lemma jan1_add_days (Y : Z) (n : nat) :
  (n < year_length (is_leap_year Y))%nat ->
  date_add_days (mkdate Y 1 1) n
  = mkdate Y (fst (walk (is_leap_year Y) n)) (snd (walk (is_leap_year Y) n)).
Proof.
  induction n as [|n IH]; intros Hn.
  - reflexivity.
  - rewrite date_add_days_S, IH by lia.
    pose proof (walk_no_carry (is_leap_year Y) n Hn) as Hc.
    rewrite walk_S. destruct (walk (is_leap_year Y) n) as [m d].
    unfold next_day. cbn [year month day fst snd].
    destruct (next_md (is_leap_year Y) (m, d)) as [[m' d'] c].
    cbn [fst snd] in Hc |- *. subst c. reflexivity.
Qed.

Lemma jan1_add_days_yday (Y : Z) (n : nat) :
  (n < year_length (is_leap_year Y))%nat ->
  tm_yday (date_add_days (mkdate Y 1 1) n) = Z.of_nat (S n).
Proof.
  intros Hn. rewrite jan1_add_days by assumption.
  unfold tm_yday. cbn [year month day]. now apply walk_yday.
Qed.

Lemma jan1_add_days_valid (Y : Z) (n : nat) :
  (1 <= Y <= 9999)%Z ->
  (n < year_length (is_leap_year Y))%nat ->
  valid_date (date_add_days (mkdate Y 1 1) n).
Proof.
  intros HY Hn. rewrite jan1_add_days by assumption.
  unfold valid_date. cbn [year month day].
  pose proof (walk_valid (is_leap_year Y) n Hn). tauto.
Qed.

Lemma string_app_inv_head (p s t : string) : p ++ s = p ++ t -> s = t.
Proof.
  induction p as [|c p IH]; cbn; intros H; [assumption|].
  injection H as H. auto.
Qed.

(** The dates of one year have pairwise distinct keys. *)
Lemma year_keys_NoDup (Y : Z) :
  NoDup (map (fun n => strftime (date_add_days (mkdate Y 1 1) n))
             (seq 0 (year_length (is_leap_year Y)))).
Proof.
  set (leap := is_leap_year Y).
  assert (E : map (fun n => strftime (date_add_days (mkdate Y 1 1) n))
                  (seq 0 (year_length leap))
              = map (fun s => fmt4 Y ++ s)
                  (map (fun n => fmt_md (walk leap n)) (seq 0 (year_length leap)))).
  { rewrite map_map. apply map_ext_in. intros n Hn. apply in_seq in Hn.
    unfold leap in *. rewrite jan1_add_days by lia.
    unfold strftime. cbn [year month day].
    now destruct (walk (is_leap_year Y) n). }
  rewrite E. apply NoDup_fmap_2.
  - intros s t. apply string_app_inv_head.
  - apply walk_keys_NoDup.
Qed.

(** Every day of a year is reached from January 1st in [tm_yday - 1] steps. *)
Lemma walk_reaches leap (m d : Z) :
  (1 <= m <= 12)%Z -> (1 <= d <= days_in_month leap m)%Z ->
  let n := Z.to_nat (days_before_month leap m + d - 1) in
  (n < year_length leap)%nat /\ walk leap n = (m, d).
Proof.
  intros Hm Hd.
  set (check := fun (m' d' : nat) =>
    let mz := Z.of_nat m' in
    let dz := Z.of_nat d' in
    let n := Z.to_nat (days_before_month leap mz + dz - 1) in
    if (dz <=? days_in_month leap mz)%Z
    then Nat.ltb n (year_length leap) &&
         (fst (walk leap n) =? mz)%Z && (snd (walk leap n) =? dz)%Z
    else true).
  assert (Hc : forallb (fun m' => forallb (check m') (seq 1 31)) (seq 1 12) = true)
    by (destruct leap; vm_compute; reflexivity).
  assert (Hdim : (days_in_month leap m <= 31)%Z).
  { assert (Hcases : (m = 1 \/ m = 2 \/ m = 3 \/ m = 4 \/ m = 5 \/ m = 6 \/ m = 7 \/
                      m = 8 \/ m = 9 \/ m = 10 \/ m = 11 \/ m = 12)%Z) by lia.
    destruct leap; intuition (subst m; cbn; lia). }
  rewrite forallb_forall in Hc.
  specialize (Hc (Z.to_nat m)). rewrite forallb_forall in Hc.
  assert (Hin1 : In (Z.to_nat m) (seq 1 12)) by (apply in_seq; lia).
  assert (Hin2 : In (Z.to_nat d) (seq 1 31)) by (apply in_seq; lia).
  specialize (Hc Hin1 (Z.to_nat d) Hin2).
  unfold check in Hc. rewrite !Z2Nat.id in Hc by lia.
  destruct (Z.leb_spec d (days_in_month leap m)); [|lia].
  rewrite !andb_true_iff in Hc. destruct Hc as [[H1 H2] H3].
  apply Nat.ltb_lt in H1. apply Z.eqb_eq in H2, H3.
  cbv zeta. split; [exact H1|].
  destruct (walk leap _); cbn in *; congruence.
Qed.

Lemma days_in_year_length (Y : Z) : days_in_year Y = year_length (is_leap_year Y).
Proof. reflexivity. Qed.

(** A valid date is one of the dates the loop visits for its year. *)
Lemma valid_date_visited (d : date) :
  valid_date d ->
  let n := Z.to_nat (tm_yday d - 1) in
  (n < days_in_year (year d))%nat /\ d = date_add_days (mkdate (year d) 1 1) n.
Proof.
  intros (HY & Hm & Hd). cbv zeta.
  destruct (walk_reaches _ _ _ Hm Hd) as [Hn Hw].
  unfold tm_yday. rewrite days_in_year_length. split; [exact Hn|].
  rewrite jan1_add_days by exact Hn. rewrite Hw. now destruct d.
Qed.

(** ** Folding insertions into a map *)

Section fold_insert.
Context {A : Type} (key val : A -> string).

Lemma insert_all_lookup_other l : forall m0 k,
  ~ In k (map key l) -> insert_all key val m0 l !! k = m0 !! k.
Proof.
  induction l as [|a l IH]; intros m0 k Hk; [reflexivity|].
  cbn in Hk |- *. fold (insert_all key val (<[key a := val a]> m0) l).
  rewrite IH by tauto. apply lookup_insert_ne. tauto.
Qed.

Lemma insert_all_lookup l : forall m0 a,
  NoDup (map key l) -> In a l -> insert_all key val m0 l !! key a = Some (val a).
Proof.
  induction l as [|b l IH]; intros m0 a Hnd Ha; [destruct Ha|].
  cbn in Hnd. apply NoDup_cons in Hnd as [Hb Hnd].
  cbn. fold (insert_all key val (<[key b := val b]> m0) l).
  destruct Ha as [->|Ha].
  - rewrite insert_all_lookup_other.
    + apply lookup_insert_eq.
    + now rewrite <- list_elem_of_In.
  - now apply IH.
Qed.

Lemma insert_all_size l : forall m0,
  NoDup (map key l) -> (forall a, In a l -> m0 !! key a = None) ->
  size (insert_all key val m0 l) = (size m0 + length l)%nat.
Proof.
  induction l as [|b l IH]; intros m0 Hnd Hfresh; [cbn; lia|].
  cbn in Hnd. apply NoDup_cons in Hnd as [Hb Hnd].
  cbn. fold (insert_all key val (<[key b := val b]> m0) l).
  rewrite IH; [|exact Hnd|].
  - rewrite map_size_insert_None by (apply Hfresh; now left). lia.
  - intros a Ha. rewrite lookup_insert_ne; [apply Hfresh; now right|].
    intros E. apply Hb. rewrite E. apply list_elem_of_In, in_map, Ha.
Qed.
End fold_insert.

(** ** The assignment loop *)

Lemma pick_question (all_questions : list string) (d : date) :
  all_questions <> [] ->
  (i <-- py_mod (tm_yday d - 1) (Z.of_nat (length all_questions)) ;;
   py_getitem all_questions i) = Ok (question_at all_questions d).
Proof.
  intros Hne.
  assert (Hlen : (0 < Z.of_nat (length all_questions))%Z)
    by (destruct all_questions; [congruence | cbn; lia]).
  unfold py_mod. destruct (Z.eqb_spec (Z.of_nat (length all_questions)) 0); [lia|].
  cbn [res_bind]. unfold py_getitem.
  pose proof (Z.mod_pos_bound (tm_yday d - 1) _ Hlen) as Hb.
  destruct (Z.ltb_spec ((tm_yday d - 1) mod Z.of_nat (length all_questions)) 0); [lia|].
  destruct (Z.ltb_spec ((tm_yday d - 1) mod Z.of_nat (length all_questions)) 0); [lia|].
  unfold question_at.
  destruct (nth_error all_questions _) as [q|] eqn:E.
  - now rewrite (nth_error_nth _ _ _ E).
  - apply nth_error_None in E. lia.
Qed.

Lemma assign_loop_ok (all_questions : list string) (dates : list date) :
  all_questions <> [] ->
  forall m0, assign_loop all_questions dates m0
             = Ok (insert_all strftime (question_at all_questions) m0 dates).
Proof.
  intros Hne. induction dates as [|d dates IH]; intros m0; [reflexivity|].
  cbn [assign_loop]. cbv zeta.
  pose proof (pick_question all_questions d Hne) as Hp.
  destruct (py_mod _ _) as [i|err]; cbn [res_bind] in Hp |- *; [|discriminate].
  rewrite Hp. cbn [res_bind]. apply IH.
Qed.

Lemma assign_loop_empty_pool (d : date) (dates : list date) m0 :
  assign_loop [] (d :: dates) m0 = Raise ZeroDivisionError.
Proof. reflexivity. Qed.

(** ** The date-question assigner *)

Lemma shuffle_nonempty (e : env) (pool : list string) :
  shuffle_permutes e -> pool <> [] -> shuffle e pool <> [].
Proof.
  intros Hperm Hne E. specialize (Hperm pool). rewrite E in Hperm.
  apply Permutation_sym, Permutation_nil in Hperm. contradiction.
Qed.

Lemma question_at_lookup (qs : list string) (d : date) (n : nat) :
  qs <> [] -> tm_yday d = Z.of_nat n -> (1 <= n)%nat ->
  qs !! ((n - 1) mod length qs)%nat = Some (question_at qs d).
Proof.
  intros Hne Hy Hn.
  assert (Hlen : (length qs <> 0)%nat) by (destruct qs; [congruence | cbn; lia]).
  unfold question_at. rewrite Hy.
  replace (Z.of_nat n - 1)%Z with (Z.of_nat (n - 1)) by lia.
  rewrite <- Nat2Z.inj_mod, Nat2Z.id.
  pose proof (Nat.mod_upper_bound (n - 1) (length qs) Hlen) as Hb.
  rewrite nth_lookup.
  destruct (lookup_lt_is_Some_2 qs _ Hb) as [q Hq]. now rewrite Hq.
Qed.

Lemma year_dates_eq (t : date) :
  year_dates t
  = map (fun n => date_add_days (mkdate (year t) 1 1) n)
        (seq 0 (year_length (is_leap_year (year t)))).
Proof. reflexivity. Qed.

(** C2: for a non-empty pool, read from the spreadsheet and shuffled, and the
    year [Y] of today, the mapping that is generated (and written to the
    mapping file) has exactly [days_in_year Y] entries, 366 or 365 by the
    Gregorian rule; the date with 1-based day-of-year index [n] is a key and
    is assigned the shuffled pool's element [(n - 1) mod len(pool)], a
    question of the pool; every calendar date of year [Y] has its entry, and
    every key is the date of one day index. *)
Theorem C2_generated_mapping_covers_year (e : env) (s : fs) (pool : list string) :
  shuffle_permutes e ->
  read_all_questions (workbook e) = Ok pool ->
  pool <> [] ->
  data_dir s = true ->
  let Y := year (today e) in
  let shuffled := shuffle e pool in
  let nth_day := fun n : nat => date_add_days (date_replace (today e) 1 1) (n - 1) in
  exists mapping : gmap string string,
    load_and_assign_questions e s
    = (Ok mapping,
       {| data_dir := true; mapping_file := Some (JsonObject mapping) |}, []) /\
    size mapping = days_in_year Y /\
    days_in_year Y
    = (if (Y mod 4 =? 0)%Z && (negb (Y mod 100 =? 0)%Z || (Y mod 400 =? 0)%Z)
       then 366 else 365)%nat /\
    (forall n : nat, (1 <= n <= days_in_year Y)%nat ->
       year (nth_day n) = Y /\ tm_yday (nth_day n) = Z.of_nat n /\
       exists q, mapping !! strftime (nth_day n) = Some q /\
                 shuffled !! ((n - 1) mod length pool)%nat = Some q /\
                 In q pool) /\
    (forall d : date, valid_date d -> year d = Y ->
       is_Some (mapping !! strftime d) /\
       mapping !! strftime d
       = shuffled !! (Z.to_nat (tm_yday d - 1) mod length pool)%nat) /\
    (forall k : string, is_Some (mapping !! k) ->
       exists n : nat, (1 <= n <= days_in_year Y)%nat /\ k = strftime (nth_day n)).
Proof.
  intros Hperm Hread Hne Hdir Y shuffled nth_day.
  pose proof (shuffle_nonempty e pool Hperm Hne) as Hne'.
  assert (Hlen : length shuffled = length pool)
    by (symmetry; apply Permutation_length, Hperm).
  unfold load_and_assign_questions. rewrite Hread.
  rewrite (assign_loop_ok _ _ Hne'). unfold dump_mapping. rewrite Hdir.
  eexists. split; [reflexivity|].
  fold shuffled. rewrite year_dates_eq. fold Y.
  set (dates := map _ (seq 0 _)).
  set (mapping := insert_all _ _ _ dates).
  assert (Hnd : NoDup (map strftime dates)).
  { unfold dates. rewrite map_map. apply year_keys_NoDup. }
  assert (Hday : forall n : nat, (1 <= n <= days_in_year Y)%nat ->
            In (nth_day n) dates /\ year (nth_day n) = Y /\
            tm_yday (nth_day n) = Z.of_nat n).
  { intros n Hn. unfold nth_day, date_replace. fold Y.
    rewrite days_in_year_length in Hn. split; [|split].
    - unfold dates. apply in_map_iff. exists (n - 1)%nat. split; [reflexivity|].
      apply in_seq. lia.
    - rewrite jan1_add_days by lia. reflexivity.
    - rewrite jan1_add_days_yday by lia. lia. }
  assert (Hget : forall n : nat, (1 <= n <= days_in_year Y)%nat ->
            mapping !! strftime (nth_day n)
            = shuffled !! ((n - 1) mod length pool)%nat /\
            is_Some (mapping !! strftime (nth_day n))).
  { intros n Hn. destruct (Hday n Hn) as (Hin & _ & Hy).
    unfold mapping. rewrite (insert_all_lookup _ _ _ _ _ Hnd Hin).
    rewrite <- Hlen. rewrite (question_at_lookup shuffled _ n Hne' Hy) by lia.
    split; [reflexivity | eauto]. }
  split; [|split; [|split; [|split]]].
  - unfold mapping. rewrite insert_all_size.
    + rewrite map_size_empty. unfold dates.
      rewrite length_map, length_seq. reflexivity.
    + exact Hnd.
    + intros a _. apply lookup_empty.
  - reflexivity.
  - intros n Hn. destruct (Hday n Hn) as (_ & Hyr & Hy).
    destruct (Hget n Hn) as [Hl [q Hq]].
    repeat split; [exact Hyr | exact Hy |].
    exists q. split; [exact Hq|]. rewrite <- Hl. split; [exact Hq|].
    rewrite Hq in Hl. symmetry in Hl.
    apply list_elem_of_lookup_2, list_elem_of_In in Hl.
    apply (Permutation_in _ (Permutation_sym (Hperm pool))). exact Hl.
  - intros d Hv HY.
    destruct (valid_date_visited d Hv) as [Hn Hd]. rewrite HY in Hn, Hd.
    set (k := Z.to_nat (tm_yday d - 1)) in *.
    assert (Hk : (1 <= S k <= days_in_year Y)%nat) by lia.
    destruct (Hget (S k) Hk) as [Hl Hs].
    assert (E : nth_day (S k) = d).
    { unfold nth_day, date_replace. fold Y.
      replace (S k - 1)%nat with k by lia. now symmetry. }
    rewrite E in Hl, Hs. replace (S k - 1)%nat with k in Hl by lia.
    split; assumption.
  - intros k [q Hq].
    destruct (in_dec string_dec k (map strftime dates)) as [Hin|Hout].
    + unfold dates in Hin. rewrite map_map in Hin.
      apply in_map_iff in Hin as (n & Hk & Hn). apply in_seq in Hn.
      exists (S n). rewrite days_in_year_length. split; [lia|].
      unfold nth_day, date_replace. fold Y.
      replace (S n - 1)%nat with n by lia. now symmetry.
    + unfold mapping in Hq. rewrite insert_all_lookup_other in Hq by exact Hout.
      rewrite lookup_empty in Hq. discriminate.
Qed.

(** The year has a first day: the loop body runs at least once. *)
Lemma year_dates_cons (t : date) :
  exists rest, year_dates t = date_replace t 1 1 :: rest.
Proof.
  unfold year_dates, days_in_year.
  destruct (is_leap_year (year t)); cbn [seq map]; eauto.
Qed.

(** C1: when a persisted mapping exists, [load_question_mapping] returns it
    unchanged, makes no Streamlit call and leaves the file system as it was;
    a second call, over the state the first one left and with any other
    spreadsheet, shuffle and current date, returns the identical mapping. *)
Theorem C1_load_question_mapping_idempotent
    (e1 e2 : env) (s : fs) (m : gmap string string) :
  data_dir s = true ->
  mapping_file s = Some (JsonObject m) ->
  load_question_mapping e1 s = (Ok m, s, []) /\
  load_question_mapping e2 (load_question_mapping e1 s).1.2 = (Ok m, s, []).
Proof.
  intros Hdir Hfile.
  assert (H : forall e, load_question_mapping e s = (Ok m, s, [])).
  { intros e. unfold load_question_mapping. rewrite Hdir, Hfile. reflexivity. }
  split; [apply H|]. rewrite (H e1). cbn [fst snd]. apply H.
Qed.

(** C10: when the mapping file exists and [json.load] rejects it,
    [load_question_mapping] returns the empty mapping after one [st.error],
    raising nothing; and whenever the file exists, whatever it holds, the
    file system is left exactly as it was: nothing is regenerated,
    overwritten or deleted. *)
Theorem C10_corrupt_mapping_file_kept (e : env) (s : fs) :
  data_dir s = true ->
  (forall raw : string,
     mapping_file s = Some (Garbage raw) ->
     load_question_mapping e s
     = (Ok ∅, s,
        [st_error "Error loading date-question mapping: " (Some JSONDecodeError)])) /\
  (is_Some (mapping_file s) -> (load_question_mapping e s).1.2 = s).
Proof.
  intros Hdir. split.
  - intros raw Hfile. unfold load_question_mapping.
    rewrite Hdir, Hfile. reflexivity.
  - intros [c Hfile]. unfold load_question_mapping. rewrite Hdir, Hfile.
    destruct c; reflexivity.
Qed.

Lemma load_and_assign_empty_pool (e : env) (s : fs) :
  read_all_questions (workbook e) = Ok [] ->
  shuffle e [] = [] ->
  load_and_assign_questions e s = (Raise ZeroDivisionError, s, []).
Proof.
  intros Hread Hsh. unfold load_and_assign_questions. rewrite Hread, Hsh.
  destruct (year_dates_cons (today e)) as [rest ->]. reflexivity.
Qed.

(** C5: with an empty pool and no mapping file, generation stops at the first
    date with an uncaught [ZeroDivisionError] (line 149), which escapes
    [load_question_mapping]; no mapping is returned and no mapping file is
    written. *)
Theorem C5_empty_pool_raises_ZeroDivisionError (e : env) (s : fs) :
  shuffle_permutes e ->
  read_all_questions (workbook e) = Ok [] ->
  mapping_file s = None ->
  load_question_mapping e s
  = (Raise ZeroDivisionError,
     {| data_dir := true; mapping_file := None |},
     [st_info "Initializing date-question mapping..."]).
Proof.
  intros Hperm Hread Hfile.
  assert (Hsh : shuffle e [] = []).
  { apply Permutation_nil. apply Hperm. }
  unfold load_question_mapping.
  assert (Hs1 : (if data_dir s then s else makedirs_data s)
                = {| data_dir := true; mapping_file := None |}).
  { destruct s as [[] f]; cbn in *; [subst f|]; reflexivity. }
  rewrite Hs1. cbn [mapping_file].
  rewrite (load_and_assign_empty_pool e _ Hread Hsh). reflexivity.
Qed.

(** *** Keys of a generated mapping *)

Lemma generated_keys (e : env) (s s' : fs) (mapping : gmap string string) calls :
  load_and_assign_questions e s = (Ok mapping, s', calls) ->
  forall k : string, is_Some (mapping !! k) ->
  exists n : nat, (n < days_in_year (year (today e)))%nat /\
    k = strftime (date_add_days (mkdate (year (today e)) 1 1) n).
Proof.
  unfold load_and_assign_questions. intros H k [q Hq].
  destruct (read_all_questions (workbook e)) as [loaded|err].
  - destruct (shuffle e loaded) as [|q0 qs] eqn:Hsh.
    + destruct (year_dates_cons (today e)) as [rest Hrest].
      rewrite Hrest in H. cbn in H. discriminate.
    + rewrite assign_loop_ok in H by discriminate.
      destruct (dump_mapping s _); inversion H; subst; clear H.
      destruct (in_dec string_dec k (map strftime (year_dates (today e))))
        as [Hin|Hout].
      * rewrite year_dates_eq, map_map in Hin.
        apply in_map_iff in Hin as (n & Hk & Hn). apply in_seq in Hn.
        exists n. rewrite days_in_year_length. split; [lia | now symmetry].
      * rewrite insert_all_lookup_other in Hq by exact Hout.
        rewrite lookup_empty in Hq. discriminate.
  - inversion H; subst. rewrite lookup_empty in Hq. discriminate.
Qed.

Lemma digit_inj (a b : Z) :
  (0 <= a <= 9)%Z -> (0 <= b <= 9)%Z -> digit a = digit b -> a = b.
Proof.
  intros Ha Hb E. apply (f_equal nat_of_ascii) in E. unfold digit in E.
  rewrite !nat_ascii_embedding in E by lia. lia.
Qed.

Lemma strftime_year_inj (d1 d2 : date) :
  (0 <= year d1 <= 9999)%Z -> (0 <= year d2 <= 9999)%Z ->
  strftime d1 = strftime d2 -> year d1 = year d2.
Proof.
  intros H1 H2 E. unfold strftime, fmt4, fmt2 in E. cbn [append] in E.
  injection E as Ea Eb Ec Ed _.
  apply digit_inj in Ea, Eb, Ec, Ed;
    try (apply Z.mod_pos_bound; lia);
    try (pose proof (Z.mod_pos_bound (year d1 / 1000) 10);
         pose proof (Z.mod_pos_bound (year d2 / 1000) 10);
         pose proof (Z.mod_pos_bound (year d1 / 100) 10);
         pose proof (Z.mod_pos_bound (year d2 / 100) 10);
         pose proof (Z.mod_pos_bound (year d1 / 10) 10);
         pose proof (Z.mod_pos_bound (year d2 / 10) 10);
         pose proof (Z.mod_pos_bound (year d1) 10);
         pose proof (Z.mod_pos_bound (year d2) 10); lia).
  revert Ea Eb Ec Ed. generalize (year d1) (year d2) H1 H2. clear.
  intros a b Ha Hb. Z.to_euclidean_division_equations. lia.
Qed.

(** C9: the lookup of line 271 is a total function: a date string that is not
    a key of the mapping gets the sentinel text (and a key gets its question);
    in particular, for a mapping generated for the year of today, every
    calendar date of another year gets the sentinel. *)
Theorem C9_question_for_sentinel :
  (forall (question_mapping : gmap string string) (selected_date_str : string),
     question_mapping !! selected_date_str = None ->
     question_for question_mapping selected_date_str = no_question) /\
  (forall (question_mapping : gmap string string) (selected_date_str q : string),
     question_mapping !! selected_date_str = Some q ->
     question_for question_mapping selected_date_str = q) /\
  (forall (e : env) (s s' : fs) (mapping : gmap string string) calls (d : date),
     load_and_assign_questions e s = (Ok mapping, s', calls) ->
     (1 <= year (today e) <= 9999)%Z ->
     valid_date d -> year d <> year (today e) ->
     question_for mapping (strftime d) = no_question).
Proof.
  split; [|split].
  - intros m k H. unfold question_for. now rewrite H.
  - intros m k q H. unfold question_for. now rewrite H.
  - intros e s s' mapping calls d Hgen HY Hv Hne.
    unfold question_for.
    destruct (mapping !! strftime d) as [q|] eqn:Hq; [exfalso | reflexivity].
    destruct (generated_keys e s s' mapping calls Hgen (strftime d)) as (n & Hn & Hk);
      [eauto|].
    apply strftime_year_inj in Hk.
    + rewrite jan1_add_days in Hk by (rewrite <- days_in_year_length; exact Hn).
      cbn [year] in Hk. contradiction.
    + destruct Hv as [? _]. lia.
    + rewrite jan1_add_days by (rewrite <- days_in_year_length; exact Hn).
      cbn [year]. lia.
Qed.

(** ** The message store *)

Lemma max_rowid_bound (l : list row) (b : Z) :
  (0 <= b)%Z -> Forall (fun r => (0 < id r <= b)%Z) l -> (max_rowid l <= b)%Z.
Proof.
  intros Hb H. unfold max_rowid. induction H as [|r l Hr _ IH]; cbn; lia.
Qed.

Lemma db_ok_next_id (d : db) :
  db_ok d ->
  (Z.max (sqlite_sequence d) (max_rowid (rows d)) + 1 = sqlite_sequence d + 1)%Z.
Proof.
  intros (_ & Hb & H0). pose proof (max_rowid_bound _ _ H0 Hb). lia.
Qed.

Lemma StronglySorted_snoc {A : Type} (R : A -> A -> Prop) (l : list A) (x : A) :
  StronglySorted R l -> Forall (fun y => R y x) l -> StronglySorted R (l ++ [x]).
Proof.
  induction 1 as [|a l Hs IH Ha]; intros Hx; cbn.
  - repeat constructor.
  - apply Forall_cons in Hx as [Hax Hx]. constructor; [now apply IH|].
    apply Forall_app. split; [exact Ha | repeat constructor; exact Hax].
Qed.

Lemma StronglySorted_filter_list {A : Type} (R : A -> A -> Prop) (P : A -> Prop)
    `{forall x, Decision (P x)} (l : list A) :
  StronglySorted R l -> StronglySorted R (filter P l).
Proof.
  induction 1 as [|a l Hs IH Ha]; [constructor|].
  rewrite filter_cons. destruct (decide (P a)); [|exact IH].
  constructor; [exact IH|].
  rewrite Forall_forall in Ha |- *. intros x Hx.
  apply list_elem_of_filter in Hx as [_ Hx]. now apply Ha.
Qed.

Lemma order_by_id_sorted (l : list row) :
  StronglySorted (fun a b => (id a < id b)%Z) l -> order_by_id l = l.
Proof.
  induction 1 as [|a l Hs IH Ha]; [reflexivity|].
  cbn. unfold order_by_id in IH. rewrite IH.
  destruct l as [|b l]; [reflexivity|]. cbn.
  apply Forall_cons in Ha as [Hab _].
  destruct (Z.leb_spec (id a) (id b)); [reflexivity | lia].
Qed.

Lemma filter_id_absent (l : list row) (K : Z) :
  Forall (fun x => id x <> K) l -> filter (fun x => id x = K) l = [].
Proof.
  induction 1 as [|a l Ha _ IH]; [reflexivity|].
  rewrite filter_cons. destruct (decide (id a = K)); [contradiction | exact IH].
Qed.

(** Ids are keys: a stored row is the only one with its id. *)
Lemma filter_id_sorted (l : list row) (r : row) :
  StronglySorted (fun a b => (id a < id b)%Z) l -> In r l ->
  filter (fun x => id x = id r) l = [r].
Proof.
  induction 1 as [|a l Hs IH Ha]; intros Hin; [destruct Hin|].
  rewrite filter_cons. destruct Hin as [E|Hin].
  - subst a. destruct (decide (id r = id r)); [|congruence]. f_equal.
    apply filter_id_absent. eapply Forall_impl; [exact Ha|].
    cbn. intros x Hx. lia.
  - rewrite Forall_forall in Ha. specialize (Ha r).
    rewrite list_elem_of_In in Ha. specialize (Ha Hin).
    destruct (decide (id a = id r)) as [E|_]; [lia | now apply IH].
Qed.

Lemma select_sender_stored (d : db) (r : row) :
  db_ok d -> In r (rows d) -> select_sender d (id r) = Some (sender r).
Proof.
  intros (Hs & _) Hin. unfold select_sender.
  now rewrite (filter_id_sorted _ _ Hs Hin).
Qed.

Lemma select_sender_None (d : db) (K : Z) :
  select_sender d K = None <-> (forall r, In r (rows d) -> id r <> K).
Proof.
  unfold select_sender. split.
  - intros H r Hin E.
    assert (Hr : r ∈ filter (fun x => id x = K) (rows d))
      by (apply list_elem_of_filter; split; [exact E | now apply list_elem_of_In]).
    destruct (filter _ (rows d)); [inversion Hr | discriminate].
  - intros H. destruct (filter _ (rows d)) as [|x l] eqn:E; [reflexivity|].
    assert (Hx : x ∈ filter (fun x => id x = K) (rows d))
      by (rewrite E; left).
    apply list_elem_of_filter in Hx as [Hid Hx]. apply list_elem_of_In in Hx.
    now apply H in Hx.
Qed.

Lemma StronglySorted_map_id (f : row -> row) (l : list row) :
  (forall x, id (f x) = id x) ->
  StronglySorted (fun a b => (id a < id b)%Z) l ->
  StronglySorted (fun a b => (id a < id b)%Z) (map f l).
Proof.
  intros Hf. induction 1 as [|a l Hs IH Ha]; cbn; constructor; [exact IH|].
  rewrite Forall_forall in Ha |- *. intros y Hy.
  apply list_elem_of_In, in_map_iff in Hy as (x & <- & Hx).
  rewrite !Hf. apply Ha. now apply list_elem_of_In.
Qed.

Lemma db_ok_empty : db_ok empty_db.
Proof. repeat split; cbn; try constructor; lia. Qed.

Lemma db_ok_send_message (d : db) (now who body : string) (date : option string) :
  db_ok d -> db_ok (send_message d now who body date).
Proof.
  intros Hok. pose proof (db_ok_next_id d Hok) as Hid.
  destruct Hok as (Hs & Hb & H0).
  unfold send_message, db_ok. cbn [rows sqlite_sequence]. rewrite Hid.
  split; [|split; [|lia]].
  - apply StronglySorted_snoc; [exact Hs|].
    eapply Forall_impl; [exact Hb|]. cbn. intros x Hx. lia.
  - apply Forall_app. split.
    + eapply Forall_impl; [exact Hb|]. cbn. intros x Hx. lia.
    + repeat constructor; cbn; lia.
Qed.

Lemma db_ok_delete_message (d : db) (K : Z) (u : string) :
  db_ok d -> db_ok (delete_message d K u).1.
Proof.
  intros Hok. unfold delete_message.
  destruct (select_sender d K) as [owner|]; [|exact Hok].
  destruct (String.eqb owner u); [|exact Hok].
  destruct Hok as (Hs & Hb & H0). unfold db_ok. cbn [fst rows sqlite_sequence].
  split; [|split; [|exact H0]].
  - now apply StronglySorted_filter_list.
  - rewrite Forall_forall in Hb |- *. intros x Hx.
    apply list_elem_of_filter in Hx as [_ Hx]. now apply Hb.
Qed.

Lemma db_ok_edit_message (d : db) (K : Z) (u body : string) :
  db_ok d -> db_ok (edit_message d K u body).1.
Proof.
  intros Hok. unfold edit_message.
  destruct (select_sender d K) as [owner|]; [|exact Hok].
  destruct (String.eqb owner u); [|exact Hok].
  destruct Hok as (Hs & Hb & H0). unfold db_ok. cbn [fst rows sqlite_sequence].
  assert (Hf : forall x : row,
            id (if bool_decide (id x = K) then set_message body x else x) = id x)
    by (intros x; destruct (bool_decide (id x = K)); reflexivity).
  split; [|split; [|exact H0]].
  - now apply StronglySorted_map_id.
  - rewrite Forall_forall in Hb |- *. intros y Hy.
    apply list_elem_of_In, in_map_iff in Hy as (x & <- & Hx).
    rewrite Hf. apply Hb. now apply list_elem_of_In.
Qed.

(** C3: for a stored message [r], an edit requested by anyone but its sender
    is refused with the error report and the whole table stays as it was; an
    edit requested by its sender succeeds, the table keeps its length, its
    order and its counter, the row at each position is unchanged except the
    row [r], which keeps its id, sender and timestamp and carries the new
    body. *)
Theorem C3_edit_owner_only (d : db) (r : row) (requester new_body : string) :
  db_ok d -> In r (rows d) ->
  (requester <> sender r ->
   edit_message d (id r) requester new_body
   = (d, st_error "You can only edit your own messages." None)) /\
  (exists d' : db,
     edit_message d (id r) (sender r) new_body
     = (d', st_success "Message updated successfully!") /\
     db_ok d' /\
     sqlite_sequence d' = sqlite_sequence d /\
     length (rows d') = length (rows d) /\
     (forall (i : nat) (x : row), nth_error (rows d) i = Some x ->
        (x = r ->
         nth_error (rows d') i
         = Some (mkrow (id r) (sender r) new_body (timestamp r))) /\
        (x <> r -> nth_error (rows d') i = Some x))).
Proof.
  intros Hok Hin. pose proof (select_sender_stored d r Hok Hin) as Hsel. split.
  - intros Hne. unfold edit_message. rewrite Hsel.
    destruct (String.eqb_spec (sender r) requester); [congruence | reflexivity].
  - pose proof (db_ok_edit_message d (id r) (sender r) new_body Hok) as Hok'.
    unfold edit_message in Hok' |- *. rewrite Hsel in Hok' |- *.
    rewrite String.eqb_refl in Hok' |- *.
    eexists. split; [reflexivity|]. cbn [fst] in Hok'.
    split; [exact Hok'|]. cbn [rows sqlite_sequence].
    split; [reflexivity|]. split; [apply length_map|].
    intros i x Hx. rewrite nth_error_map, Hx. cbn [option_map]. split.
    + intros ->. rewrite bool_decide_eq_true_2 by reflexivity. reflexivity.
    + intros Hne. rewrite bool_decide_eq_false_2; [reflexivity|].
      intros E. apply Hne.
      destruct Hok as (Hs & _).
      pose proof (filter_id_sorted _ _ Hs Hin) as Hf.
      assert (Hxin : x ∈ filter (fun y => id y = id r) (rows d)).
      { apply list_elem_of_filter. split; [exact E|].
        apply list_elem_of_In. eapply nth_error_In, Hx. }
      rewrite Hf in Hxin. now apply list_elem_of_singleton in Hxin.
Qed.

Lemma select_sender_after_delete (d : db) (K : Z) :
  select_sender
    {| rows := filter (fun r => id r <> K) (rows d);
       sqlite_sequence := sqlite_sequence d |} K = None.
Proof.
  apply select_sender_None. cbn [rows]. intros r Hr.
  apply list_elem_of_In, list_elem_of_filter in Hr as [Hne _]. exact Hne.
Qed.

(** C4 as stated fails: the report for an id that is not in the table is the
    report for a message owned by somebody else. *)
Lemma C4_counterexample :
  ~ (forall (d : db) (missing stored : Z) (owner requester : string),
       select_sender d missing = None ->
       select_sender d stored = Some owner -> owner <> requester ->
       (delete_message d missing requester).2
       <> (delete_message d stored requester).2 /\
       (edit_message d missing requester "x").2
       <> (edit_message d stored requester "x").2).
Proof.
  intros H.
  destruct (H sample_db 2%Z 1%Z USER_A USER_B) as [Hd _];
    [reflexivity | reflexivity | discriminate |].
  apply Hd. reflexivity.
Qed.

(** C4, amended: [edit_message] and [delete_message] have one failure branch.
    When no message has the given id, and when the message exists but belongs
    to somebody else, they make the same [st.error] call ("You can only edit
    / delete your own messages.") and return the table unchanged.  In
    particular, once its sender has deleted a stored message, deleting the
    same id again gives that report and changes nothing. *)
Theorem C4_failures_share_one_report :
  (forall (d : db) (K : Z) (requester new_body : string),
     (select_sender d K = None \/
      exists owner, select_sender d K = Some owner /\ owner <> requester) ->
     edit_message d K requester new_body
     = (d, st_error "You can only edit your own messages." None) /\
     delete_message d K requester
     = (d, st_error "You can only delete your own messages." None)) /\
  (forall (d : db) (r : row) (requester : string),
     db_ok d -> In r (rows d) ->
     let d1 := (delete_message d (id r) (sender r)).1 in
     (delete_message d (id r) (sender r)).2
     = st_success "Message deleted successfully!" /\
     (forall x, In x (rows d1) <-> In x (rows d) /\ x <> r) /\
     delete_message d1 (id r) requester
     = (d1, st_error "You can only delete your own messages." None)).
Proof.
  split.
  - intros d K requester new_body [Hnone | (owner & Hsome & Hne)];
      unfold edit_message, delete_message.
    + rewrite Hnone. split; reflexivity.
    + rewrite Hsome.
      destruct (String.eqb_spec owner requester); [contradiction|].
      split; reflexivity.
  - intros d r requester Hok Hin.
    pose proof (select_sender_stored d r Hok Hin) as Hsel.
    unfold delete_message at 1 2. rewrite Hsel, String.eqb_refl. cbn [fst snd].
    split; [reflexivity|]. split.
    + intros x. cbn [rows]. rewrite <- !list_elem_of_In, list_elem_of_filter.
      destruct Hok as (Hs & _).
      pose proof (filter_id_sorted _ _ Hs Hin) as Hf.
      split; intros [H1 H2]; split; try assumption.
      * intros ->. now apply H1.
      * intros E. apply H2.
        assert (Hx : x ∈ filter (fun y => id y = id r) (rows d))
          by (apply list_elem_of_filter; split; assumption).
        rewrite Hf in Hx. now apply list_elem_of_singleton in Hx.
    + unfold delete_message. now rewrite select_sender_after_delete.
Qed.



(** ** Timestamps and their date component *)

Lemma digit_val_digit (k : Z) : (0 <= k <= 9)%Z -> digit_val (digit k) = Some k.
Proof.
  intros Hk. unfold digit_val, digit.
  rewrite nat_ascii_embedding by lia.
  replace (Z.of_nat (48 + Z.to_nat k)) with (48 + k)%Z by lia.
  destruct (Z.leb_spec 48 (48 + k)); [|lia].
  destruct (Z.leb_spec (48 + k) 57); [|lia].
  cbn [andb]. f_equal. lia.
Qed.

Lemma digits2_digit (a b : Z) :
  (0 <= a <= 9)%Z -> (0 <= b <= 9)%Z ->
  digits2 (digit a) (digit b) = Some (10 * a + b)%Z.
Proof.
  intros Ha Hb. unfold digits2.
  rewrite (digit_val_digit a Ha), (digit_val_digit b Hb). reflexivity.
Qed.

Lemma in_range_Some (lo hi v : Z) :
  (lo <= v <= hi)%Z -> in_range lo hi (Some v) = Some v.
Proof.
  intros H. unfold in_range. cbn.
  destruct (Z.leb_spec lo v); [|lia]. destruct (Z.leb_spec v hi); [|lia].
  reflexivity.
Qed.

Lemma strftime_nonempty (D : date) : given (Some (strftime D)) = Some (strftime D).
Proof. reflexivity. Qed.

Lemma days_in_month_le_31 (leap : bool) (m : Z) : (days_in_month leap m <= 31)%Z.
Proof.
  unfold days_in_month.
  destruct m as [|p|p]; try lia.
  destruct leap; do 4 (try destruct p as [p|p|]); lia.
Qed.

(** [DATE()] of a calendar date at midnight is that date. *)
Lemma sql_date_midnight (D : date) :
  valid_date D -> sql_date (strftime D ++ " 00:00:00") = Some (strftime D).
Proof.
  intros (HY & Hm & Hd).
  pose proof (days_in_month_le_31 (is_leap_year (year D)) (month D)) as H31.
  destruct D as [y m d]. cbn [year month day] in *.
  assert (Hdig : forall k, (0 <= k mod 10 <= 9)%Z)
    by (intros k; pose proof (Z.mod_pos_bound k 10); lia).
  unfold strftime, fmt_md, fmt4, fmt2. cbn [year month day fst snd].
  cbv [append]. unfold sql_date.
  rewrite !digits2_digit by apply Hdig.
  cbn [time_part_ok parse_hms].
  replace (10 * (y / 1000 mod 10) + y / 100 mod 10)%Z with (y / 100)%Z
    by (Z.to_euclidean_division_equations; lia).
  replace (10 * (y / 10 mod 10) + y mod 10)%Z with (y mod 100)%Z
    by (Z.to_euclidean_division_equations; lia).
  replace (10 * (m / 10 mod 10) + m mod 10)%Z with m
    by (Z.to_euclidean_division_equations; lia).
  replace (10 * (d / 10 mod 10) + d mod 10)%Z with d
    by (Z.to_euclidean_division_equations; lia).
  rewrite !in_range_Some by lia. cbn [mbind option_bind].
  replace (100 * (y / 100) + y mod 100)%Z with y
    by (Z.to_euclidean_division_equations; lia).
  unfold normalize_ymd.
  destruct (Z.leb_spec d (days_in_month (is_leap_year y) m)); [|lia].
  reflexivity.
Qed.

(** C7: an insert with an explicit calendar date [D] appends one row whose
    timestamp is [D] followed by [00:00:00]; the date component of that
    timestamp is [D], whatever the current instant [now] is.  With no
    explicit date the timestamp is [now], the insertion instant. *)
Theorem C7_explicit_date_is_midnight (d : db) (now who body : string) (D : date) :
  valid_date D ->
  let K := (Z.max (sqlite_sequence d) (max_rowid (rows d)) + 1)%Z in
  rows (send_message d now who body (Some (strftime D)))
  = (rows d ++ [mkrow K who body (strftime D ++ " 00:00:00")])%list /\
  sql_date (strftime D ++ " 00:00:00") = Some (strftime D) /\
  rows (send_message d now who body None) = (rows d ++ [mkrow K who body now])%list.
Proof.
  intros Hv K. split; [|split].
  - unfold send_message. rewrite strftime_nonempty. reflexivity.
  - now apply sql_date_midnight.
  - reflexivity.
Qed.

Lemma get_messages_filter (d : db) (D : string) :
  db_ok d -> D <> "" ->
  get_messages d (Some D)
  = filter (fun r => sql_date (timestamp r) = Some D) (rows d).
Proof.
  intros (Hs & _) HD. unfold get_messages, given.
  destruct (String.eqb_spec D ""); [contradiction|].
  apply order_by_id_sorted. now apply StronglySorted_filter_list.
Qed.


(** ** The theorems at sample inputs *)

Lemma sample_env_permutes : shuffle_permutes sample_env.
Proof. intros l. apply Permutation_rev. Qed.

Lemma empty_pool_env_permutes : shuffle_permutes empty_pool_env.
Proof. intros l. apply Permutation_rev. Qed.

Lemma load_and_assign_generated (e : env) (s : fs) (pool : list string) :
  read_all_questions (workbook e) = Ok pool ->
  shuffle e pool <> [] ->
  data_dir s = true ->
  let mapping :=
    insert_all strftime (question_at (shuffle e pool)) ∅ (year_dates (today e)) in
  load_and_assign_questions e s
  = (Ok mapping, {| data_dir := true; mapping_file := Some (JsonObject mapping) |}, []).
Proof.
  intros Hread Hne Hdir. cbv zeta. unfold load_and_assign_questions.
  rewrite Hread, (assign_loop_ok _ _ Hne). unfold dump_mapping.
  now rewrite Hdir.
Qed.

Lemma C1_witness :
  load_question_mapping sample_env sample_fs = (Ok sample_mapping, sample_fs, []) /\
  load_question_mapping other_env (load_question_mapping sample_env sample_fs).1.2
  = (Ok sample_mapping, sample_fs, []).
Proof.
  apply (C1_load_question_mapping_idempotent sample_env other_env sample_fs
           sample_mapping); reflexivity.
Defined.

Lemma C2_witness :
  exists mapping : gmap string string,
    (load_and_assign_questions sample_env ready_fs).1.1 = Ok mapping /\
    size mapping = 365%nat /\
    mapping !! "2025-01-01" = Some "What are you grateful for?" /\
    mapping !! "2025-01-02" = Some "What made you smile today?" /\
    mapping !! "2025-01-03" = Some "What are you grateful for?".
Proof.
  destruct (C2_generated_mapping_covers_year sample_env ready_fs sample_pool)
    as (mapping & Hrun & Hsize & _ & Hday & _).
  - exact sample_env_permutes.
  - reflexivity.
  - discriminate.
  - reflexivity.
  - exists mapping. rewrite Hrun. split; [reflexivity|]. split; [exact Hsize|].
    destruct (Hday 1%nat) as (_ & _ & q1 & Hq1 & Hs1 & _); [vm_compute; lia|].
    destruct (Hday 2%nat) as (_ & _ & q2 & Hq2 & Hs2 & _); [vm_compute; lia|].
    destruct (Hday 3%nat) as (_ & _ & q3 & Hq3 & Hs3 & _); [vm_compute; lia|].
    vm_compute in Hs1, Hs2, Hs3.
    injection Hs1 as <-. injection Hs2 as <-. injection Hs3 as <-.
    repeat split; assumption.
Defined.

Lemma C3_witness :
  edit_message sample_db 1 USER_B "hi there"
  = (sample_db, st_error "You can only edit your own messages." None) /\
  (edit_message sample_db 1 USER_A "hi there").2
  = st_success "Message updated successfully!" /\
  rows (edit_message sample_db 1 USER_A "hi there").1
  = [mkrow 1 USER_A "hi there" "2025-02-03 10:15:00"].
Proof.
  assert (Hok : db_ok sample_db) by apply db_ok_send_message, db_ok_empty.
  assert (Hin : In sample_row (rows sample_db)) by (left; reflexivity).
  destruct (C3_edit_owner_only sample_db sample_row USER_B "hi there" Hok Hin)
    as (Hother & d' & Hrun & _).
  split; [apply Hother; discriminate|].
  change (id sample_row) with 1%Z in Hrun.
  change (sender sample_row) with USER_A in Hrun.
  rewrite Hrun. split; [reflexivity|].
  vm_compute in Hrun. injection Hrun as <-. reflexivity.
Defined.

Lemma C4_witness :
  edit_message sample_db 2 USER_B "x"
  = (sample_db, st_error "You can only edit your own messages." None) /\
  delete_message sample_db 1 USER_B
  = (sample_db, st_error "You can only delete your own messages." None) /\
  delete_message (delete_message sample_db 1 USER_A).1 1 USER_A
  = ((delete_message sample_db 1 USER_A).1,
     st_error "You can only delete your own messages." None).
Proof.
  destruct C4_failures_share_one_report as [Hfail Htwice].
  split; [|split].
  - apply (Hfail sample_db 2%Z USER_B "x"). left. reflexivity.
  - apply (Hfail sample_db 1%Z USER_B "x"). right. exists USER_A.
    split; [reflexivity | discriminate].
  - apply (Htwice sample_db sample_row USER_A).
    + apply db_ok_send_message, db_ok_empty.
    + left. reflexivity.
Defined.

Lemma C5_witness :
  read_all_questions (workbook empty_pool_env) = Ok [] /\
  load_question_mapping empty_pool_env fresh_fs
  = (Raise ZeroDivisionError, ready_fs,
     [st_info "Initializing date-question mapping..."]).
Proof.
  split; [reflexivity|].
  apply (C5_empty_pool_raises_ZeroDivisionError empty_pool_env fresh_fs).
  - exact empty_pool_env_permutes.
  - reflexivity.
  - reflexivity.
Defined.


Lemma sample_date_valid : valid_date (mkdate 2025 3 1).
Proof. unfold valid_date. cbn. lia. Qed.

Lemma C7_witness :
  rows (send_message empty_db "2025-11-04 08:00:00" USER_A "hello" (Some "2025-03-01"))
  = [mkrow 1 USER_A "hello" "2025-03-01 00:00:00"] /\
  sql_date "2025-03-01 00:00:00" = Some "2025-03-01".
Proof.
  destruct (C7_explicit_date_is_midnight empty_db "2025-11-04 08:00:00" USER_A
              "hello" (mkdate 2025 3 1) sample_date_valid) as (Hrows & Hdate & _).
  split; [exact Hrows | exact Hdate].
Defined.


Lemma C9_witness :
  question_for sample_mapping "2025-02-02" = no_question /\
  question_for sample_mapping "2025-02-01" = "What made you smile today?" /\
  question_for
    (insert_all strftime (question_at (shuffle sample_env sample_pool)) ∅
       (year_dates (today sample_env)))
    "2024-02-29" = no_question.
Proof.
  destruct C9_question_for_sentinel as (Habsent & Hpresent & Hyear).
  split; [|split].
  - apply Habsent. reflexivity.
  - apply Hpresent. reflexivity.
  - assert (Hgen := load_and_assign_generated sample_env ready_fs sample_pool
                      eq_refl ltac:(discriminate) eq_refl).
    cbv zeta in Hgen.
    apply (Hyear _ _ _ _ _ (mkdate 2024 2 29) Hgen).
    + change (1 <= 2025 <= 9999)%Z. lia.
    + unfold valid_date. cbn [year month day].
      change (is_leap_year 2024) with true. cbn. lia.
    + discriminate.
Defined.

Lemma C10_witness :
  load_question_mapping sample_env corrupt_fs
  = (Ok ∅, corrupt_fs,
     [st_error "Error loading date-question mapping: " (Some JSONDecodeError)]) /\
  (load_question_mapping sample_env sample_fs).1.2 = sample_fs.
Proof.
  destruct (C10_corrupt_mapping_file_kept sample_env corrupt_fs eq_refl)
    as [Hcorrupt _].
  destruct (C10_corrupt_mapping_file_kept sample_env sample_fs eq_refl)
    as [_ Hkept].
  split; [eapply Hcorrupt; reflexivity | apply Hkept; eauto].
Defined.

(** * Further properties of the program *)

(** ** Reading the pool *)

Lemma extend_from_sheets_ok (sheets : list sheet) : forall acc : list string,
  Forall (fun sh => sh <> []) sheets ->
  extend_from_sheets sheets acc
  = Ok (acc ++ concat (map sheet_questions sheets))%list.
Proof.
  induction sheets as [|sh sheets IH]; intros acc Hall; cbn.
  - now rewrite app_nil_r.
  - apply Forall_cons in Hall as [Hsh Hall].
    destruct sh as [|col cols]; [contradiction|]. cbn.
    rewrite IH by exact Hall. now rewrite <- app_assoc.
Qed.

Lemma extend_from_sheets_empty_sheet (sheets : list sheet) : forall acc : list string,
  Exists (fun sh => sh = []) sheets ->
  extend_from_sheets sheets acc = Raise IndexError.
Proof.
  induction sheets as [|sh sheets IH]; intros acc Hex.
  - inversion Hex.
  - destruct sh as [|col cols]; [reflexivity|]. cbn. apply IH.
    apply Exists_cons in Hex as [Hsh|Hex]; [discriminate | exact Hex].
Qed.

(** X1: the pool read from a workbook whose sheets all have a column is the
    sheets' first columns without their empty cells, joined in sheet order;
    one sheet without columns makes the whole read raise [IndexError],
    whatever the other sheets hold; a missing workbook raises too. *)
Theorem X1_pool_from_sheets (sheets : list sheet) :
  (Forall (fun sh => sh <> []) sheets ->
   read_all_questions (Some sheets) = Ok (concat (map sheet_questions sheets))) /\
  (Exists (fun sh => sh = []) sheets ->
   read_all_questions (Some sheets) = Raise IndexError) /\
  read_all_questions None = Raise FileNotFoundError.
Proof.
  split; [|split].
  - intros Hall. unfold read_all_questions.
    now rewrite extend_from_sheets_ok.
  - intros Hex. unfold read_all_questions.
    now apply extend_from_sheets_empty_sheet.
  - reflexivity.
Qed.

Lemma X1_witness :
  read_all_questions
    (Some [[[Some "a"; None; Some "b"]; [Some "ignored"]]; [[None; Some "c"]]])
  = Ok ["a"; "b"; "c"] /\
  read_all_questions (Some [[[Some "a"]]; []; [[Some "c"]]]) = Raise IndexError.
Proof.
  split.
  - apply (X1_pool_from_sheets
             [[[Some "a"; None; Some "b"]; [Some "ignored"]]; [[None; Some "c"]]]).
    repeat constructor; discriminate.
  - apply (X1_pool_from_sheets [[[Some "a"]]; []; [[Some "c"]]]).
    right. left. reflexivity.
Defined.

(** ** Failed and first runs of the assigner *)

Lemma no_mapping_file_start (s : fs) :
  mapping_file s = None \/ data_dir s = false ->
  (if data_dir s then s else makedirs_data s)
  = {| data_dir := true; mapping_file := None |}.
Proof.
  destruct s as [[] f]; cbn; intros [H|H]; try discriminate; try reflexivity.
  now subst f.
Qed.

(** X2: when the spreadsheet cannot be read and there is no mapping file,
    [load_question_mapping] raises nothing and returns the empty mapping
    after three Streamlit calls (the info, the read error, the failure
    report); the [data] directory exists afterwards and still holds no
    mapping file, so the next run tries the generation again. *)
Theorem X2_unreadable_spreadsheet (e : env) (s : fs) (err : exn) :
  read_all_questions (workbook e) = Raise err ->
  mapping_file s = None \/ data_dir s = false ->
  load_and_assign_questions e s
  = (Ok ∅, s, [st_error "Error reading Excel file: " (Some err)]) /\
  load_question_mapping e s
  = (Ok ∅, {| data_dir := true; mapping_file := None |},
     [st_info "Initializing date-question mapping...";
      st_error "Error reading Excel file: " (Some err);
      st_error "Failed to initialize date-question mapping." None]).
Proof.
  intros Hread Hs. split.
  - unfold load_and_assign_questions. now rewrite Hread.
  - unfold load_question_mapping. rewrite (no_mapping_file_start s Hs).
    cbn [mapping_file]. unfold load_and_assign_questions. rewrite Hread.
    reflexivity.
Qed.

Lemma X2_witness :
  load_question_mapping failing_env fresh_fs
  = (Ok ∅, ready_fs,
     [st_info "Initializing date-question mapping...";
      st_error "Error reading Excel file: " (Some FileNotFoundError);
      st_error "Failed to initialize date-question mapping." None]).
Proof.
  apply (X2_unreadable_spreadsheet failing_env fresh_fs FileNotFoundError).
  - reflexivity.
  - left. reflexivity.
Defined.

Lemma generated_size (qs : list string) (t : date) :
  size (insert_all strftime (question_at qs) ∅ (year_dates t))
  = days_in_year (year t).
Proof.
  rewrite insert_all_size.
  - rewrite map_size_empty. unfold year_dates.
    now rewrite length_map, length_seq.
  - rewrite year_dates_eq, map_map. apply year_keys_NoDup.
  - intros a _. apply lookup_empty.
Qed.

Lemma days_in_year_pos (Y : Z) : (365 <= days_in_year Y)%nat.
Proof. unfold days_in_year. destruct (is_leap_year Y); lia. Qed.

Lemma generated_lookup (qs : list string) (t : date) (n : nat) :
  qs <> [] -> (1 <= n <= days_in_year (year t))%nat ->
  insert_all strftime (question_at qs) ∅ (year_dates t)
    !! strftime (date_add_days (date_replace t 1 1) (n - 1))
  = qs !! ((n - 1) mod length qs)%nat.
Proof.
  intros Hne Hn. rewrite days_in_year_length in Hn.
  assert (Hnd : NoDup (map strftime (year_dates t)))
    by (rewrite year_dates_eq, map_map; apply year_keys_NoDup).
  assert (Hin : In (date_add_days (date_replace t 1 1) (n - 1)) (year_dates t)).
  { rewrite year_dates_eq. apply in_map_iff. exists (n - 1)%nat.
    split; [reflexivity|]. apply in_seq. lia. }
  rewrite (insert_all_lookup _ _ _ _ _ Hnd Hin).
  symmetry. apply question_at_lookup; [exact Hne | | lia].
  unfold date_replace. rewrite jan1_add_days_yday by lia. lia.
Qed.

(** X3: on a first run (no mapping file, or no [data] directory yet) with a
    non-empty pool, [load_question_mapping] reports the initialisation and
    its success, returns a non-empty mapping and leaves it in the mapping
    file; the next run, whatever the spreadsheet, the shuffle and the date
    are by then, returns that same mapping, reports nothing and writes
    nothing. *)
Theorem X3_first_run_then_reload (e e2 : env) (s : fs) (pool : list string) :
  shuffle_permutes e ->
  read_all_questions (workbook e) = Ok pool ->
  pool <> [] ->
  mapping_file s = None \/ data_dir s = false ->
  exists (m : gmap string string) (s' : fs),
    load_question_mapping e s
    = (Ok m, s',
       [st_info "Initializing date-question mapping...";
        st_success "Date-question mapping initialized successfully!"]) /\
    s' = {| data_dir := true; mapping_file := Some (JsonObject m) |} /\
    size m = days_in_year (year (today e)) /\
    load_question_mapping e2 s' = (Ok m, s', []).
Proof.
  intros Hperm Hread Hne Hs.
  pose proof (shuffle_nonempty e pool Hperm Hne) as Hne'.
  set (m := insert_all strftime (question_at (shuffle e pool)) ∅
              (year_dates (today e))).
  exists m, {| data_dir := true; mapping_file := Some (JsonObject m) |}.
  assert (Hsize : size m = days_in_year (year (today e))) by apply generated_size.
  split; [|split; [reflexivity | split; [exact Hsize | reflexivity]]].
  unfold load_question_mapping. rewrite (no_mapping_file_start s Hs).
  cbn [mapping_file].
  rewrite (load_and_assign_generated e {| data_dir := true; mapping_file := None |}
             pool Hread Hne' eq_refl). fold m.
  rewrite bool_decide_eq_false_2; [reflexivity|].
  intros E. rewrite E, map_size_empty in Hsize.
  pose proof (days_in_year_pos (year (today e))). lia.
Qed.

Lemma X3_witness :
  exists m : gmap string string,
    (load_question_mapping sample_env fresh_fs).1.1 = Ok m /\
    size m = 365%nat /\
    (load_question_mapping other_env (load_question_mapping sample_env fresh_fs).1.2).1.1
    = Ok m.
Proof.
  destruct (X3_first_run_then_reload sample_env other_env fresh_fs sample_pool)
    as (m & s' & Hrun & _ & Hsize & Hagain).
  - exact sample_env_permutes.
  - reflexivity.
  - discriminate.
  - left. reflexivity.
  - exists m. rewrite Hrun. cbn [fst snd]. rewrite Hagain.
    split; [reflexivity|]. split; [exact Hsize | reflexivity].
Defined.

(** ** Questions over the year *)

(** X4: in a generated mapping the questions repeat with the period of the
    pool: the dates with day-of-year indices [n] and [n + len(pool)], both in
    the year, carry the same question. *)
Theorem X4_cyclic_reuse (e : env) (s : fs) (pool : list string) (n : nat) :
  shuffle_permutes e ->
  read_all_questions (workbook e) = Ok pool ->
  pool <> [] ->
  data_dir s = true ->
  (1 <= n)%nat ->
  (n + length pool <= days_in_year (year (today e)))%nat ->
  let nth_day := fun k : nat => date_add_days (date_replace (today e) 1 1) (k - 1) in
  exists (mapping : gmap string string) (s' : fs) (q : string),
    load_and_assign_questions e s = (Ok mapping, s', []) /\
    mapping !! strftime (nth_day n) = Some q /\
    mapping !! strftime (nth_day (n + length pool)%nat) = Some q.
Proof.
  intros Hperm Hread Hne Hdir Hn Hle nth_day.
  pose proof (shuffle_nonempty e pool Hperm Hne) as Hne'.
  assert (Hlen : length (shuffle e pool) = length pool)
    by (symmetry; apply Permutation_length, Hperm).
  assert (Hpos : (length pool <> 0)%nat) by (destruct pool; [congruence | cbn; lia]).
  pose proof (load_and_assign_generated e s pool Hread Hne' Hdir) as Hgen.
  cbv zeta in Hgen.
  destruct (lookup_lt_is_Some_2 (shuffle e pool) ((n - 1) mod length pool)%nat)
    as [q Hq].
  { rewrite Hlen. now apply Nat.mod_upper_bound. }
  eexists _, _, q. split; [exact Hgen|]. unfold nth_day. split.
  - rewrite generated_lookup by (try exact Hne'; lia). now rewrite Hlen.
  - rewrite generated_lookup by (try exact Hne'; lia). rewrite Hlen.
    replace (n + length pool - 1)%nat with ((n - 1) + 1 * length pool)%nat by lia.
    now rewrite Nat.Div0.mod_add.
Qed.

Lemma X4_witness :
  exists (mapping : gmap string string) (q : string),
    (load_and_assign_questions sample_env ready_fs).1.1 = Ok mapping /\
    mapping !! "2025-01-05" = Some q /\ mapping !! "2025-01-07" = Some q.
Proof.
  destruct (X4_cyclic_reuse sample_env ready_fs sample_pool 5)
    as (mapping & s' & q & Hrun & H5 & H7).
  - exact sample_env_permutes.
  - reflexivity.
  - discriminate.
  - reflexivity.
  - lia.
  - vm_compute. lia.
  - exists mapping, q. rewrite Hrun. split; [reflexivity|].
    split; [exact H5 | exact H7].
Defined.

(** X5: when the pool is not longer than the year, no question is left out:
    every question of the pool is the question of one of the first
    [len(pool)] days of the generated mapping. *)
Theorem X5_every_question_assigned (e : env) (s : fs) (pool : list string) :
  shuffle_permutes e ->
  read_all_questions (workbook e) = Ok pool ->
  pool <> [] ->
  data_dir s = true ->
  (length pool <= days_in_year (year (today e)))%nat ->
  exists (mapping : gmap string string) (s' : fs),
    load_and_assign_questions e s = (Ok mapping, s', []) /\
    forall q : string, In q pool ->
      exists n : nat, (1 <= n <= length pool)%nat /\
        mapping !! strftime (date_add_days (date_replace (today e) 1 1) (n - 1))
        = Some q.
Proof.
  intros Hperm Hread Hne Hdir Hle.
  pose proof (shuffle_nonempty e pool Hperm Hne) as Hne'.
  assert (Hlen : length (shuffle e pool) = length pool)
    by (symmetry; apply Permutation_length, Hperm).
  pose proof (load_and_assign_generated e s pool Hread Hne' Hdir) as Hgen.
  cbv zeta in Hgen. eexists _, _. split; [exact Hgen|].
  intros q Hq.
  apply (Permutation_in _ (Hperm pool)), list_elem_of_In in Hq.
  apply list_elem_of_lookup_1 in Hq as [i Hi].
  pose proof (lookup_lt_Some _ _ _ Hi) as Hlt. rewrite Hlen in Hlt.
  exists (S i). split; [lia|].
  rewrite generated_lookup by (try exact Hne'; lia).
  replace (S i - 1)%nat with i by lia.
  rewrite Hlen, Nat.mod_small by exact Hlt. exact Hi.
Qed.

Lemma X5_witness :
  exists mapping : gmap string string,
    (load_and_assign_questions sample_env ready_fs).1.1 = Ok mapping /\
    forall q : string, In q sample_pool ->
      exists n : nat, (1 <= n <= 2)%nat /\
        mapping !! strftime (date_add_days (mkdate 2025 1 1) (n - 1)) = Some q.
Proof.
  destruct (X5_every_question_assigned sample_env ready_fs sample_pool)
    as (mapping & s' & Hrun & Hall).
  - exact sample_env_permutes.
  - reflexivity.
  - discriminate.
  - reflexivity.
  - vm_compute. lia.
  - exists mapping. rewrite Hrun. split; [reflexivity | exact Hall].
Defined.

(** ** The table under sequences of calls *)

Lemma db_ok_do_call (d : db) (c : store_call) : db_ok d -> db_ok (do_call d c).
Proof.
  intros Hok. destruct c; cbn [do_call].
  - now apply db_ok_send_message.
  - now apply db_ok_delete_message.
  - now apply db_ok_edit_message.
Qed.

(** One call: the counter does not go down, and a row whose id the counter
    had already reached is an earlier row with its id, sender and timestamp. *)
Lemma do_call_keeps (d : db) (c : store_call) :
  db_ok d ->
  (sqlite_sequence d <= sqlite_sequence (do_call d c))%Z /\
  (forall r' : row, In r' (rows (do_call d c)) ->
     (id r' <= sqlite_sequence d)%Z ->
     exists r : row, In r (rows d) /\ id r = id r' /\ sender r = sender r' /\
                     timestamp r = timestamp r').
Proof.
  intros Hok. destruct c as [now who body date | K u | K u body]; cbn [do_call].
  - unfold send_message. cbn [rows sqlite_sequence].
    rewrite (db_ok_next_id d Hok). split; [lia|].
    intros r' Hin Hid. apply in_app_iff in Hin as [Hin|[<-|[]]].
    + exists r'. auto.
    + cbn in Hid. lia.
  - unfold delete_message.
    destruct (select_sender d K) as [owner|]; [destruct (String.eqb owner u)|];
      cbn [fst rows sqlite_sequence]; (split; [lia|]); intros r' Hin _;
      exists r'; repeat split; try assumption.
    apply list_elem_of_In, list_elem_of_filter in Hin as [_ Hin].
    now apply list_elem_of_In.
  - unfold edit_message.
    destruct (select_sender d K) as [owner|]; [destruct (String.eqb owner u)|];
      cbn [fst rows sqlite_sequence]; (split; [lia|]); intros r' Hin _;
      try (exists r'; repeat split; assumption).
    apply in_map_iff in Hin as (x & <- & Hx). exists x.
    split; [exact Hx|]. destruct (bool_decide (id x = K)); repeat split.
Qed.

(** X6: starting from a table as SQLite keeps it, after any sequence of
    [send_message], [delete_message] and [edit_message] calls the table is
    still in id order with unique ids, the AUTOINCREMENT counter has not gone
    down, and every row whose id the counter had reached before the calls is
    one of the earlier rows, with the same id, sender and timestamp: no id is
    given twice, even after deletions, and no call changes who sent a message
    or when. *)
Theorem X6_ids_never_reused (cs : list store_call) : forall d : db,
  db_ok d ->
  db_ok (do_calls d cs) /\
  (sqlite_sequence d <= sqlite_sequence (do_calls d cs))%Z /\
  (forall r' : row, In r' (rows (do_calls d cs)) ->
     (id r' <= sqlite_sequence d)%Z ->
     exists r : row, In r (rows d) /\ id r = id r' /\ sender r = sender r' /\
                     timestamp r = timestamp r').
Proof.
  induction cs as [|c cs IH]; intros d Hok.
  - cbn. split; [exact Hok|]. split; [lia|]. intros r' Hin _. exists r'. auto.
  - cbn [do_calls fold_left]. fold (do_calls (do_call d c) cs).
    destruct (do_call_keeps d c Hok) as [Hseq Hstep].
    destruct (IH (do_call d c) (db_ok_do_call d c Hok)) as (Hok' & Hseq' & Hrest).
    split; [exact Hok'|]. split; [lia|].
    intros r' Hin Hid.
    destruct (Hrest r' Hin) as (r1 & Hin1 & E1 & E2 & E3); [lia|].
    destruct (Hstep r1 Hin1) as (r & Hr & F1 & F2 & F3); [lia|].
    exists r. repeat split; congruence.
Qed.

Lemma X6_witness :
  let d := do_calls sample_db
             [call_delete 1 USER_A;
              call_send "2025-02-04 09:00:00" USER_B "again" None] in
  db_ok d /\ map id (rows d) = [2%Z].
Proof.
  assert (Hok : db_ok sample_db) by apply db_ok_send_message, db_ok_empty.
  destruct (X6_ids_never_reused
              [call_delete 1 USER_A;
               call_send "2025-02-04 09:00:00" USER_B "again" None]
              sample_db Hok) as (Hok' & _).
  split; [exact Hok' | reflexivity].
Defined.

(** ** Listings *)

Lemma insert_by_id_perm (r : row) (l : list row) :
  Permutation (insert_by_id r l) (r :: l).
Proof.
  induction l as [|x l IH]; cbn; [reflexivity|].
  destruct (id r <=? id x)%Z; [reflexivity|].
  rewrite IH. apply perm_swap.
Qed.

Lemma order_by_id_perm (l : list row) : Permutation (order_by_id l) l.
Proof.
  induction l as [|x l IH]; cbn; [reflexivity|].
  fold (order_by_id l). rewrite insert_by_id_perm. now constructor.
Qed.




Lemma filter_map_commute {A : Type} (P : A -> Prop) `{forall x, Decision (P x)}
    (f : A -> A) (l : list A) :
  (forall x, P (f x) <-> P x) -> filter P (map f l) = map f (filter P l).
Proof.
  intros Hf. induction l as [|x l IH]; [reflexivity|].
  cbn [map]. rewrite !filter_cons.
  destruct (decide (P (f x))) as [Hp|Hp], (decide (P x)) as [Hq|Hq].
  - cbn [map]. now rewrite IH.
  - exfalso. apply Hq. now apply Hf.
  - exfalso. apply Hp. now apply Hf.
  - exact IH.
Qed.

(** X8: after its sender deletes a stored message, the listing for any date
    is the earlier listing for that date without that message; the other
    messages stay, in their order. *)
Theorem X8_listing_after_delete (d : db) (r : row) (D : string) :
  db_ok d -> In r (rows d) -> D <> "" ->
  let d' := (delete_message d (id r) (sender r)).1 in
  get_messages d' (Some D)
  = filter (fun x => id x <> id r) (get_messages d (Some D)) /\
  (forall x : row, In x (get_messages d' (Some D)) <->
                   In x (get_messages d (Some D)) /\ x <> r).
Proof.
  intros Hok Hin HD d'.
  assert (Hok' : db_ok d') by now apply db_ok_delete_message.
  assert (Hrows : rows d' = filter (fun x => id x <> id r) (rows d)).
  { unfold d', delete_message.
    rewrite (select_sender_stored d r Hok Hin), String.eqb_refl. reflexivity. }
  assert (Hlist : get_messages d' (Some D)
                  = filter (fun x => id x <> id r) (get_messages d (Some D))).
  { rewrite (get_messages_filter d' D Hok' HD), (get_messages_filter d D Hok HD).
    rewrite Hrows, !list_filter_filter. apply list_filter_iff. tauto. }
  split; [exact Hlist|]. intros x. rewrite Hlist.
  rewrite <- !list_elem_of_In, list_elem_of_filter.
  split.
  - intros [H1 H2]. split; [exact H2 | intros ->; now apply H1].
  - intros [H1 H2]. split; [|exact H1]. intros E. apply H2.
    rewrite (get_messages_filter d D Hok HD) in H1.
    apply list_elem_of_filter in H1 as [_ H1].
    destruct Hok as (Hs & _). pose proof (filter_id_sorted _ _ Hs Hin) as Hf.
    assert (Hx : x ∈ filter (fun y => id y = id r) (rows d))
      by (apply list_elem_of_filter; split; assumption).
    rewrite Hf in Hx. now apply list_elem_of_singleton in Hx.
Qed.

Lemma sample_db_ok : db_ok sample_db.
Proof. apply db_ok_send_message, db_ok_empty. Qed.

Lemma X8_witness :
  get_messages (delete_message sample_db 1 USER_A).1 (Some "2025-02-03") = [].
Proof.
  destruct (X8_listing_after_delete sample_db sample_row "2025-02-03" sample_db_ok)
    as [Hlist _]; [left; reflexivity | discriminate |].
  change (id sample_row) with 1%Z in Hlist.
  change (sender sample_row) with USER_A in Hlist.
  rewrite Hlist. reflexivity.
Defined.

(** X9: after its sender edits a stored message, the listing for any date is
    the earlier listing for that date, row for row, with the new body in the
    edited message: an edit moves no message to another day or position. *)
Theorem X9_listing_after_edit (d : db) (r : row) (new_body D : string) :
  db_ok d -> In r (rows d) -> D <> "" ->
  let d' := (edit_message d (id r) (sender r) new_body).1 in
  get_messages d' (Some D)
  = map (fun x => if bool_decide (id x = id r)
                  then mkrow (id r) (sender r) new_body (timestamp r) else x)
        (get_messages d (Some D)).
Proof.
  intros Hok Hin HD d'.
  assert (Hok' : db_ok d') by now apply db_ok_edit_message.
  set (upd := fun x : row => if bool_decide (id x = id r)
                             then set_message new_body x else x).
  assert (Hrows : rows d' = map upd (rows d)).
  { unfold d', edit_message.
    rewrite (select_sender_stored d r Hok Hin), String.eqb_refl. reflexivity. }
  rewrite (get_messages_filter d' D Hok' HD), (get_messages_filter d D Hok HD).
  rewrite Hrows, filter_map_commute.
  - apply map_ext_in. intros x Hx.
    apply list_elem_of_In, list_elem_of_filter in Hx as [_ Hx].
    unfold upd. destruct Hok as (Hs & _).
    pose proof (filter_id_sorted _ _ Hs Hin) as Hf.
    destruct (decide (id x = id r)) as [E|Hne].
    + rewrite !bool_decide_eq_true_2 by exact E.
      assert (Hxin : x ∈ filter (fun y => id y = id r) (rows d))
        by (apply list_elem_of_filter; split; assumption).
      rewrite Hf in Hxin. apply list_elem_of_singleton in Hxin. now subst x.
    + now rewrite !bool_decide_eq_false_2 by exact Hne.
  - intros x. unfold upd. now destruct (bool_decide (id x = id r)).
Qed.

Lemma X9_witness :
  get_messages (edit_message sample_db 1 USER_A "good morning").1 (Some "2025-02-03")
  = [mkrow 1 USER_A "good morning" "2025-02-03 10:15:00"].
Proof.
  pose proof (X9_listing_after_edit sample_db sample_row "good morning" "2025-02-03"
                sample_db_ok) as H.
  cbv zeta in H.
  change (id sample_row) with 1%Z in H.
  change (sender sample_row) with USER_A in H.
  rewrite H; [reflexivity | left; reflexivity | discriminate].
Defined.





(** ** Stripped bodies *)








(** ** The buttons of a listing *)

(** X13: the Edit and Delete buttons are drawn only for the listed messages
    whose sender is the current user, and on those both calls succeed: the
    delete reports success and removes the message, the edit reports
    success. *)
Theorem X13_own_messages_can_be_changed
    (d : db) (selected_date : option string) (username new_message : string) (r : row) :
  db_ok d ->
  In r (own_messages (get_messages d selected_date) username) ->
  sender r = username /\
  (delete_message d (id r) username).2 = st_success "Message deleted successfully!" /\
  (forall x : row, In x (rows (delete_message d (id r) username).1) -> id x <> id r) /\
  (edit_message d (id r) username new_message).2
  = st_success "Message updated successfully!".
Proof.
  intros Hok Hin. unfold own_messages in Hin.
  apply filter_In in Hin as [Hin Hown]. apply String.eqb_eq in Hown.
  assert (Hrow : In r (rows d)).
  { unfold get_messages in Hin.
    destruct (given selected_date) as [D|];
      apply (Permutation_in _ (order_by_id_perm _)) in Hin; [|exact Hin].
    apply list_elem_of_In, list_elem_of_filter in Hin as [_ Hin].
    now apply list_elem_of_In. }
  pose proof (select_sender_stored d r Hok Hrow) as Hsel.
  split; [exact Hown|]. unfold delete_message, edit_message.
  rewrite Hsel, Hown, String.eqb_refl. cbn [fst snd rows].
  split; [reflexivity|]. split; [|reflexivity].
  intros x Hx. apply list_elem_of_In, list_elem_of_filter in Hx as [Hne _].
  exact Hne.
Qed.

Lemma X13_witness :
  (delete_message sample_db 1 USER_A).2 = st_success "Message deleted successfully!" /\
  (edit_message sample_db 1 USER_A "hi").2 = st_success "Message updated successfully!".
Proof.
  destruct (X13_own_messages_can_be_changed sample_db (Some "2025-02-03") USER_A "hi"
              sample_row sample_db_ok) as (_ & Hdel & _ & Hedit).
  - left. reflexivity.
  - split; [exact Hdel | exact Hedit].
Defined.

(** ** Date strings in order *)

Lemma compare_digit (a b : Z) :
  (0 <= a <= 9)%Z -> (0 <= b <= 9)%Z ->
  Ascii.compare (digit a) (digit b) = (a ?= b)%Z.
Proof.
  intros Ha Hb. unfold Ascii.compare, digit, ascii_of_nat.
  rewrite !N_ascii_embedding by lia.
  destruct (Z.compare_spec a b) as [E|E|E].
  - subst. apply N.compare_refl.
  - apply N.compare_lt_iff. lia.
  - apply N.compare_gt_iff. lia.
Qed.

Lemma compare_two_digits (a1 a0 b1 b0 : Z) (r1 r2 : string) :
  (0 <= a1 <= 9)%Z -> (0 <= a0 <= 9)%Z -> (0 <= b1 <= 9)%Z -> (0 <= b0 <= 9)%Z ->
  String.compare (String (digit a1) (String (digit a0) r1))
                 (String (digit b1) (String (digit b0) r2))
  = match (10 * a1 + a0 ?= 10 * b1 + b0)%Z with
    | Eq => String.compare r1 r2
    | c => c
    end.
Proof.
  intros Ha1 Ha0 Hb1 Hb0. cbn [String.compare].
  rewrite !compare_digit by assumption.
  destruct (Z.compare_spec a1 b1), (Z.compare_spec a0 b0),
    (Z.compare_spec (10 * a1 + a0) (10 * b1 + b0)); try lia; reflexivity.
Qed.

Lemma compare_dash (r1 r2 : string) :
  String.compare (String "-" r1) (String "-" r2) = String.compare r1 r2.
Proof. reflexivity. Qed.

(** On the strings [strftime] gives for calendar dates, the order of strings
    is the order of dates. *)
Lemma strftime_leb (a b : date) :
  valid_date a -> valid_date b ->
  String.leb (strftime a) (strftime b) = date_leb a b.
Proof.
  intros (HYa & Hma & Hda) (HYb & Hmb & Hdb).
  pose proof (days_in_month_le_31 (is_leap_year (year a)) (month a)).
  pose proof (days_in_month_le_31 (is_leap_year (year b)) (month b)).
  destruct a as [y1 m1 d1], b as [y2 m2 d2]. cbn [year month day] in *.
  assert (Hdig : forall k, (0 <= k mod 10 <= 9)%Z)
    by (intros k; pose proof (Z.mod_pos_bound k 10); lia).
  unfold String.leb, strftime, fmt_md, fmt4, fmt2. cbn [year month day fst snd].
  cbv [append].
  rewrite compare_two_digits by apply Hdig.
  rewrite compare_two_digits by apply Hdig.
  rewrite compare_dash. rewrite compare_two_digits by apply Hdig.
  rewrite compare_dash. rewrite compare_two_digits by apply Hdig.
  cbn [String.compare].
  replace (10 * (y1 / 1000 mod 10) + y1 / 100 mod 10)%Z with (y1 / 100)%Z
    by (Z.to_euclidean_division_equations; lia).
  replace (10 * (y2 / 1000 mod 10) + y2 / 100 mod 10)%Z with (y2 / 100)%Z
    by (Z.to_euclidean_division_equations; lia).
  replace (10 * (y1 / 10 mod 10) + y1 mod 10)%Z with (y1 mod 100)%Z
    by (Z.to_euclidean_division_equations; lia).
  replace (10 * (y2 / 10 mod 10) + y2 mod 10)%Z with (y2 mod 100)%Z
    by (Z.to_euclidean_division_equations; lia).
  replace (10 * (m1 / 10 mod 10) + m1 mod 10)%Z with m1
    by (Z.to_euclidean_division_equations; lia).
  replace (10 * (m2 / 10 mod 10) + m2 mod 10)%Z with m2
    by (Z.to_euclidean_division_equations; lia).
  replace (10 * (d1 / 10 mod 10) + d1 mod 10)%Z with d1
    by (Z.to_euclidean_division_equations; lia).
  replace (10 * (d2 / 10 mod 10) + d2 mod 10)%Z with d2
    by (Z.to_euclidean_division_equations; lia).
  unfold date_leb. cbn [year month day].
  assert (Hy1 : y1 = (100 * (y1 / 100) + y1 mod 100)%Z)
    by (Z.to_euclidean_division_equations; lia).
  assert (Hy2 : y2 = (100 * (y2 / 100) + y2 mod 100)%Z)
    by (Z.to_euclidean_division_equations; lia).
  assert (Hr1 : (0 <= y1 mod 100 < 100)%Z) by (apply Z.mod_pos_bound; lia).
  assert (Hr2 : (0 <= y2 mod 100 < 100)%Z) by (apply Z.mod_pos_bound; lia).
  generalize dependent (y1 / 100)%Z. generalize dependent (y1 mod 100)%Z.
  generalize dependent (y2 / 100)%Z. generalize dependent (y2 mod 100)%Z.
  intros l2 Hl2 h2 Hy2 l1 Hl1 h1 Hy1.
  destruct (Z.compare_spec h1 h2), (Z.compare_spec l1 l2),
    (Z.compare_spec m1 m2), (Z.compare_spec d1 d2),
    (Z.ltb_spec y1 y2), (Z.eqb_spec y1 y2), (Z.ltb_spec m1 m2),
    (Z.eqb_spec m1 m2), (Z.leb_spec d1 d2); try lia; reflexivity.
Qed.

(** X14: the question list keeps an item of a calendar date exactly when the
    date lies between 1 February 2025 and today, both included, in calendar
    order: comparing the date strings compares the dates, so no future date
    and no date before February 2025 is shown. *)
Theorem X14_question_list_between_dates
    (items : list (string * string)) (t d : date) (q : string) :
  valid_date t -> valid_date d ->
  In (strftime d, q) (question_list_items items (strftime t)) <->
  In (strftime d, q) items /\
  date_leb (mkdate 2025 2 1) d = true /\ date_leb d t = true.
Proof.
  intros Ht Hd.
  assert (Hfeb : valid_date (mkdate 2025 2 1)).
  { unfold valid_date. cbn [year month day].
    change (is_leap_year 2025) with false. cbn. lia. }
  unfold question_list_items. rewrite filter_In. cbn [fst].
  change "2025-02-01" with (strftime (mkdate 2025 2 1)).
  rewrite (strftime_leb _ _ Hfeb Hd), (strftime_leb _ _ Hd Ht), andb_true_iff.
  tauto.
Qed.

Lemma X14_witness :
  In ("2025-03-01", "q") (question_list_items
        [("2025-01-31", "p"); ("2025-03-01", "q"); ("2025-12-31", "r")] "2025-11-04")
  /\ ~ In ("2025-12-31", "r") (question_list_items
        [("2025-01-31", "p"); ("2025-03-01", "q"); ("2025-12-31", "r")] "2025-11-04").
Proof.
  assert (Hv : forall m dd, (1 <= m <= 12)%Z -> (1 <= dd <= 28)%Z ->
                 valid_date (mkdate 2025 m dd)).
  { intros m dd Hm Hdd. unfold valid_date. cbn [year month day].
    change (is_leap_year 2025) with false.
    assert (28 <= days_in_month false m)%Z
      by (unfold days_in_month; destruct m as [|p|p]; try lia;
          do 4 (try destruct p as [p|p|]); lia).
    lia. }
  assert (Hdec : valid_date (mkdate 2025 12 31)).
  { unfold valid_date. cbn [year month day].
    change (is_leap_year 2025) with false. cbn. lia. }
  split.
  - apply (X14_question_list_between_dates _ (mkdate 2025 11 4) (mkdate 2025 3 1) "q");
      [apply Hv; lia | apply Hv; lia |].
    split; [right; left; reflexivity | split; reflexivity].
  - intros Hin.
    apply (X14_question_list_between_dates _ (mkdate 2025 11 4) (mkdate 2025 12 31) "r")
      in Hin as (_ & _ & Hle); [discriminate Hle | apply Hv; lia | exact Hdec].
Defined.

(** ** A mapping outlives its year *)

Lemma first_run_generates (e : env) (s : fs) (pool : list string) :
  read_all_questions (workbook e) = Ok pool ->
  shuffle e pool <> [] ->
  mapping_file s = None \/ data_dir s = false ->
  let m := insert_all strftime (question_at (shuffle e pool)) ∅
             (year_dates (today e)) in
  (load_question_mapping e s).1
  = (Ok m, {| data_dir := true; mapping_file := Some (JsonObject m) |}).
Proof.
  intros Hread Hne Hs. cbv zeta. unfold load_question_mapping.
  rewrite (no_mapping_file_start s Hs). cbn [mapping_file].
  rewrite (load_and_assign_generated e {| data_dir := true; mapping_file := None |}
             pool Hread Hne eq_refl).
  now destruct (bool_decide _).
Qed.

(** X15: the mapping is generated for the year of the first run only and is
    never renewed: on any later run, whatever the date is by then, the
    mapping returned is the one of the first run, and every calendar date of
    another year gets the "no question" text. *)
Theorem X15_mapping_not_renewed_for_new_year
    (e e2 : env) (s : fs) (pool : list string) (d : date) :
  shuffle_permutes e ->
  read_all_questions (workbook e) = Ok pool ->
  pool <> [] ->
  mapping_file s = None \/ data_dir s = false ->
  (1 <= year (today e) <= 9999)%Z ->
  valid_date d -> year d <> year (today e) ->
  exists m : gmap string string,
    (load_question_mapping e s).1.1 = Ok m /\
    (load_question_mapping e2 (load_question_mapping e s).1.2).1.1 = Ok m /\
    question_for m (strftime d) = no_question.
Proof.
  intros Hperm Hread Hne Hs HY Hv Hyear.
  pose proof (shuffle_nonempty e pool Hperm Hne) as Hne'.
  pose proof (first_run_generates e s pool Hread Hne' Hs) as Hrun. cbv zeta in Hrun.
  set (m := insert_all strftime (question_at (shuffle e pool)) ∅
              (year_dates (today e))) in *.
  exists m. rewrite Hrun. cbn [fst snd]. split; [reflexivity|].
  split; [reflexivity|].
  unfold question_for.
  destruct (m !! strftime d) as [q|] eqn:Hq; [exfalso | reflexivity].
  pose proof (load_and_assign_generated e {| data_dir := true; mapping_file := None |}
                pool Hread Hne' eq_refl) as Hgen.
  cbv zeta in Hgen. fold m in Hgen.
  destruct (generated_keys e _ _ m [] Hgen (strftime d)) as (n & Hn & Hk); [eauto|].
  apply strftime_year_inj in Hk.
  - rewrite jan1_add_days in Hk by (rewrite <- days_in_year_length; exact Hn).
    cbn [year] in Hk. contradiction.
  - destruct Hv as [? _]. lia.
  - rewrite jan1_add_days by (rewrite <- days_in_year_length; exact Hn).
    cbn [year]. lia.
Qed.

Lemma X15_witness :
  exists m : gmap string string,
    (load_question_mapping other_env (load_question_mapping sample_env fresh_fs).1.2).1.1
    = Ok m /\
    question_for m "2028-02-29" = no_question.
Proof.
  destruct (X15_mapping_not_renewed_for_new_year sample_env other_env fresh_fs
              sample_pool (mkdate 2028 2 29)) as (m & _ & Hagain & Hq).
  - exact sample_env_permutes.
  - reflexivity.
  - discriminate.
  - left. reflexivity.
  - change (1 <= 2025 <= 9999)%Z. lia.
  - unfold valid_date. cbn [year month day].
    change (is_leap_year 2028) with true. cbn. lia.
  - discriminate.
  - exists m. split; [exact Hagain | exact Hq].
Defined.
